(** * pumpv5: the WebSocket relay between one ESP32 pump controller and its
    dashboards.

    Shallow embedding of [src/server.js] (the deployed, lenient relay) and of
    [src/backup/Server/server.js] (the strict relay), and the properties of
    the connection routing, the command forwarding, the status broadcast and
    the log queries.

    Layout:
    - the JSON values the handlers inspect;
    - [JsDate]: the part of the ECMAScript [Date] object the relay uses
      ([new Date(v)], [getDate], [setDate]) over time values in milliseconds;
    - the runtime (JSON parser, time zone of the host), the [MotorLog]
      collection, the relay state (the heap of [ws] objects, [wss.clients],
      [esp32Socket]) and a small state/trace/exception monad;
    - the two ['message'] handlers, the ['close'] handler and the event loop;
    - [Sample]: two concrete runtimes, frames and states for the examples;
    - the facts: dates, the store, the handlers, the routing invariant, and
      the properties of the relay, each with a run on a concrete input. *)

From stdpp Require Import gmap strings list sorting pretty.
From Stdlib Require Import ZArith Lia Ascii String.

Set Warnings "-register-all".
Local Open Scope Z_scope.

(* ===================================================================== *)
(** ** JSON values *)
(* ===================================================================== *)

(** What [JSON.parse] returns.  Numbers are kept as integers: the relay never
    computes with a number of a message, it only tests truthiness, passes it
    to [new Date] or copies it. Objects are association lists in which a key
    is looked up from the left. *)
Inductive json : Type :=
  | JNull
  | JBool (b : bool)
  | JNum (n : Z)
  | JStr (s : string)
  | JArr (l : list json)
  | JObj (fields : list (string * json)).

(** A JavaScript value read from a parsed message: [None] is [undefined]. *)
Definition jsval : Type := option json.

Fixpoint assoc (k : string) (fields : list (string * json)) : jsval :=
  match fields with
  | [] => None
  | (k', v) :: rest => if String.eqb k k' then Some v else assoc k rest
  end.

(** [v.k] for a value that is not [null] or [undefined]: primitives and
    arrays have none of the property names the relay reads. *)
Definition prop (v : json) (k : string) : jsval :=
  match v with
  | JObj fields => assoc k fields
  | _ => None
  end.

(** ToBoolean. *)
Definition truthy (v : jsval) : bool :=
  match v with
  | None | Some JNull => false
  | Some (JBool b) => b
  | Some (JNum n) => negb (n =? 0)
  | Some (JStr s) => negb (String.eqb s "")
  | Some (JArr _) | Some (JObj _) => true
  end.

(** [v === 'lit'] for a string literal. *)
Definition is_str (v : jsval) (lit : string) : bool :=
  match v with
  | Some (JStr s) => String.eqb s lit
  | _ => false
  end.

Definition join_comma (parts : list string) : string :=
  match parts with
  | [] => ""
  | p :: ps => fold_left (fun acc q => acc +:+ "," +:+ q) ps p
  end.

(** How an expression ends: with a value, or with a thrown TypeError. *)
Inductive completion (A : Type) : Type :=
  | Normal (a : A)
  | Throw.
Arguments Normal {A} a.
Arguments Throw {A}.

#[global] Instance completion_ret : MRet completion := fun A a => Normal a.

#[global] Instance completion_bind : MBind completion := fun A B f c =>
  match c with
  | Normal a => f a
  | Throw => Throw
  end.

#[global] Instance completion_fmap : FMap completion := fun A B f c =>
  match c with
  | Normal a => Normal (f a)
  | Throw => Throw
  end.

(** ToString, as a template literal and [new Date(v)] apply it.  An array
    is joined ([null] gives the empty string).  An object of a parsed
    message inherits [Object.prototype.toString] unless the message gave it
    a member named [toString]: that member is no function, so the
    conversion goes on to [valueOf], which gives no primitive either (an
    own member is no function, [Object.prototype.valueOf] returns the
    object), and ends in a TypeError. *)
Fixpoint ToString (v : json) : completion string :=
  match v with
  | JNull => Normal "null"
  | JBool true => Normal "true"
  | JBool false => Normal "false"
  | JNum n => Normal (pretty n)
  | JStr s => Normal s
  | JArr l =>
      join_comma <$>
        ((fix elems (l : list json) : completion (list string) :=
            match l with
            | [] => Normal []
            | JNull :: r => cons "" <$> elems r
            | x :: r => s ← ToString x; cons s <$> elems r
            end) l)
  | JObj fields =>
      match assoc "toString" fields with
      | Some _ => Throw
      | None => Normal "[object Object]"
      end
  end.

(** A substitution [${v}] of a template literal. *)
Definition to_text (v : jsval) : completion string :=
  match v with
  | None => Normal "undefined"
  | Some j => ToString j
  end.

(* ===================================================================== *)
(** ** ECMAScript dates *)
(* ===================================================================== *)

Module JsDate.

(** A time value is a number of milliseconds since 1970-01-01T00:00:00Z;
    a [Date] object holds a time value or NaN ([None], "Invalid Date"). *)
Definition date : Type := option Z.

Definition msPerDay : Z := 86400000.

Definition Day (t : Z) : Z := t / msPerDay.
Definition TimeWithinDay (t : Z) : Z := t mod msPerDay.

Definition DayFromYear (y : Z) : Z :=
  365 * (y - 1970) + (y - 1969) / 4 - (y - 1901) / 100 + (y - 1601) / 400.

Definition TimeFromYear (y : Z) : Z := msPerDay * DayFromYear y.

(** The largest [y] with [TimeFromYear y <= t]: an estimate from the mean
    length of a year, moved by one where it is off. *)
Definition YearFromTime (t : Z) : Z :=
  let d := Day t in
  let y0 := 1970 + (d * 400) / 146097 in
  if DayFromYear (y0 + 1) <=? d then y0 + 1
  else if d <? DayFromYear y0 then y0 - 1
  else y0.

Definition DaysInYear (y : Z) : Z := DayFromYear (y + 1) - DayFromYear y.

Definition InLeapYear (t : Z) : Z :=
  if DaysInYear (YearFromTime t) =? 366 then 1 else 0.

Definition DayWithinYear (t : Z) : Z := Day t - DayFromYear (YearFromTime t).

(** Day within the year on which month [m] (0 = January) starts. *)
Definition month_start (leap m : Z) : Z :=
  match m with
  | 0 => 0
  | 1 => 31
  | 2 => 59 + leap
  | 3 => 90 + leap
  | 4 => 120 + leap
  | 5 => 151 + leap
  | 6 => 181 + leap
  | 7 => 212 + leap
  | 8 => 243 + leap
  | 9 => 273 + leap
  | 10 => 304 + leap
  | _ => 334 + leap
  end.

Definition month_of_day (leap dwy : Z) : Z :=
  if dwy <? 31 then 0
  else if dwy <? 59 + leap then 1
  else if dwy <? 90 + leap then 2
  else if dwy <? 120 + leap then 3
  else if dwy <? 151 + leap then 4
  else if dwy <? 181 + leap then 5
  else if dwy <? 212 + leap then 6
  else if dwy <? 243 + leap then 7
  else if dwy <? 273 + leap then 8
  else if dwy <? 304 + leap then 9
  else if dwy <? 334 + leap then 10
  else 11.

Definition MonthFromTime (t : Z) : Z :=
  month_of_day (InLeapYear t) (DayWithinYear t).

Definition DateFromTime (t : Z) : Z :=
  DayWithinYear t - month_start (InLeapYear t) (MonthFromTime t) + 1.

(** [MakeDay(year, month, date)]: the day number of the first of the month,
    plus [date - 1]; [date] may run past the end of the month. *)
Definition MakeDay (year month dt : Z) : Z :=
  let ym := year + month / 12 in
  let mn := month mod 12 in
  let leap := if DaysInYear ym =? 366 then 1 else 0 in
  DayFromYear ym + month_start leap mn + dt - 1.

Definition MakeDate (day time : Z) : Z := day * msPerDay + time.

Definition TimeClip (t : Z) : date :=
  if Z.abs t <=? 8640000000000000 then Some t else None.

Definition DaysInMonth (year m : Z) : Z :=
  let leap := if DaysInYear year =? 366 then 1 else 0 in
  if m =? 11 then 31 else month_start leap (m + 1) - month_start leap m.

(** *** The date-only ISO form [YYYY-MM-DD] *)

Definition digit (a : ascii) : option Z :=
  let n := Z.of_N (N_of_ascii a) in
  if (48 <=? n) && (n <=? 57) then Some (n - 48) else None.

Definition digits2 (a b : ascii) : option Z :=
  match digit a, digit b with
  | Some x, Some y => Some (10 * x + y)
  | _, _ => None
  end.

Definition digits4 (a b c d : ascii) : option Z :=
  match digits2 a b, digits2 c d with
  | Some x, Some y => Some (100 * x + y)
  | _, _ => None
  end.

(** Year, month (1..12) and day of a string [YYYY-MM-DD] that names a day of
    the calendar. *)
Definition iso_date_only (s : string) : option (Z * Z * Z) :=
  match list_ascii_of_string s with
  | [y1; y2; y3; y4; h1; m1; m2; h2; d1; d2] =>
      if Ascii.eqb h1 "-" && Ascii.eqb h2 "-" then
        match digits4 y1 y2 y3 y4, digits2 m1 m2, digits2 d1 d2 with
        | Some y, Some m, Some d =>
            if (1 <=? m) && (m <=? 12) && (1 <=? d) && (d <=? DaysInMonth y (m - 1))
            then Some (y, m, d) else None
        | _, _, _ => None
        end
      else None
  | _ => None
  end.

(** A date-only form is UTC midnight of that day. *)
Definition utc_midnight (ymd : Z * Z * Z) : Z :=
  let '(y, m, d) := ymd in MakeDate (MakeDay y (m - 1) d) 0.

End JsDate.

(* ===================================================================== *)
(** ** The runtime the relay runs on *)
(* ===================================================================== *)

(** What the JavaScript runtime and the host decide: the JSON parser ([None]
    is a [SyntaxError]), the local time zone adjustment of the host
    (ECMAScript's [LocalTZA(t, isUTC)], in milliseconds) and how [Date.parse]
    reads a string that is not of the date-only ISO form. *)
Record runtime : Type := {
  JSON_parse : string -> option json;
  LocalTZA : Z -> bool -> Z;
  Date_parse_other : string -> JsDate.date;
}.

Section Dates.

Context (rt : runtime).
Import JsDate.

Definition LocalTime (t : Z) : Z := t + LocalTZA rt t true.
Definition UTC (t : Z) : Z := t - LocalTZA rt t false.

Definition Date_parse (s : string) : date :=
  match iso_date_only s with
  | Some ymd => TimeClip (utc_midnight ymd)
  | None => Date_parse_other rt s
  end.

(** [new Date(v)] for a value of a parsed message.  An array or an object
    is first converted to a primitive; that gives the string of [ToString],
    which is then parsed, or throws as [ToString] does. *)
Definition new_Date (v : jsval) : completion date :=
  match v with
  | None => Normal None
  | Some JNull => Normal (Some 0)
  | Some (JBool b) => Normal (Some (if b then 1 else 0))
  | Some (JNum n) => Normal (TimeClip n)
  | Some (JStr s) => Normal (Date_parse s)
  | Some (JArr l) => Date_parse <$> ToString (JArr l)
  | Some (JObj f) => Date_parse <$> ToString (JObj f)
  end.

(** [d.getDate()]: the day of the month in local time; NaN on Invalid Date. *)
Definition getDate (d : date) : option Z :=
  match d with
  | Some t => Some (DateFromTime (LocalTime t))
  | None => None
  end.

(** [d.setDate(dt)]: the same local year, month and time of day, on day
    [dt] of the month. *)
Definition setDate (d : date) (dt : option Z) : date :=
  match d, dt with
  | Some t, Some dt =>
      let lt := LocalTime t in
      let newDate :=
        MakeDate (MakeDay (YearFromTime lt) (MonthFromTime lt) dt)
                 (TimeWithinDay lt) in
      TimeClip (UTC newDate)
  | _, _ => None
  end.

(** [n + 1] on a number that may be NaN. *)
Definition plus1 (n : option Z) : option Z :=
  match n with Some n => Some (n + 1) | None => None end.

End Dates.

(* ===================================================================== *)
(** ** The MotorLog collection *)
(* ===================================================================== *)

(** A document of the [MotorLog] model. The four fields of type [String]
    hold a string, [null], or nothing; [serverTime] is the schema default
    [Date.now]. *)
Record MotorLog : Type := {
  macAddress : jsval;
  onTime : jsval;
  offTime : jsval;
  duration : jsval;
  serverTime : Z;
}.

(** The cast of mongoose to the schema type [String]: [null] and
    [undefined] stay, a string stays, a number or a boolean becomes its
    text, an object with a nonempty string [_id] becomes that string; an
    array, and any other object, is refused with a CastError ([Throw]). *)
Definition cast_String (v : jsval) : completion jsval :=
  match v with
  | None => Normal None
  | Some JNull => Normal (Some JNull)
  | Some (JStr s) => Normal (Some (JStr s))
  | Some (JNum n) => Normal (Some (JStr (pretty n)))
  | Some (JBool b) => Normal (Some (JStr (if b then "true" else "false")))
  | Some (JArr _) => Throw
  | Some (JObj fields) =>
      match assoc "_id" fields with
      | Some (JStr id) => if String.eqb id "" then Throw else Normal (Some (JStr id))
      | _ => Throw
      end
  end.

(** The document of [MotorLog.create({ macAddress: mac, onTime, offTime,
    duration })] at time [now], where [{ mac, onTime, offTime, duration }]
    is read from [payload]; [Throw] when a field is refused, and then the
    promise of [create] is rejected. *)
Definition new_MotorLog (payload : json) (now : Z) : completion MotorLog :=
  mac ← cast_String (prop payload "mac");
  onTime ← cast_String (prop payload "onTime");
  offTime ← cast_String (prop payload "offTime");
  duration ← cast_String (prop payload "duration");
  Normal {| macAddress := mac; onTime := onTime; offTime := offTime;
            duration := duration; serverTime := now |}.

(** The filter on [serverTime]: [$gte] and [$lt], each absent or a [Date]. *)
Record time_range : Type := {
  gte : option JsDate.date;
  lt : option JsDate.date;
}.

(** A filter document: [{}] or [{serverTime: range}]. *)
Definition query : Type := option time_range.

Definition valid_bound (b : option JsDate.date) : bool :=
  match b with
  | Some None => false
  | _ => true
  end.

(** Mongoose refuses (CastError) a filter that holds an Invalid Date. *)
Definition cast_ok (q : query) : bool :=
  match q with
  | None => true
  | Some r => valid_bound (gte r) && valid_bound (lt r)
  end.

Definition matches (q : query) (e : MotorLog) : bool :=
  match q with
  | None => true
  | Some r =>
      match gte r with
      | Some (Some lo) => lo <=? serverTime e
      | _ => true
      end
      &&
      match lt r with
      | Some (Some hi) => serverTime e <? hi
      | _ => true
      end
  end.

(** The order of [.sort({ serverTime: -1 })]. *)
Definition newer_first (a b : MotorLog) : Prop := serverTime b <= serverTime a.

#[global] Instance newer_first_dec a b : Decision (newer_first a b).
Proof. unfold newer_first. apply _. Defined.

(** [MotorLog.find(q).sort({ serverTime: -1 }).limit(100)]. *)
Definition find_sort_limit (q : query) (coll : list MotorLog) : list MotorLog :=
  take 100 (merge_sort newer_first (List.filter (matches q) coll)).

(** [MotorLog.deleteMany(q)]: what is left, and [deletedCount]. *)
Definition deleteMany (q : query) (coll : list MotorLog) : list MotorLog * Z :=
  (List.filter (fun e => negb (matches q e)) coll,
   Z.of_nat (List.length (List.filter (matches q) coll))).

(* ===================================================================== *)
(** ** The relay state *)
(* ===================================================================== *)

(** [ws.readyState]. *)
Inductive ready_state : Type := CONNECTING | OPEN | CLOSING | CLOSED.

#[global] Instance ready_state_eq_dec : EqDecision ready_state.
Proof. solve_decision. Defined.

Definition ready_code (r : ready_state) : Z :=
  match r with CONNECTING => 0 | OPEN => 1 | CLOSING => 2 | CLOSED => 3 end.

(** A [ws] object: the flag the relay adds to it ([undefined] is [false])
    and the transport state the [ws] library keeps. *)
Record WebSocket : Type := {
  isEsp32 : bool;
  readyState : ready_state;
}.

(** Connections are named by the address of their [ws] object. *)
Definition sock : Type := nat.

(** The state of the process: the heap of [ws] objects (an object stays
    there after its connection closed, [esp32Socket] may still point at it),
    [wss.clients] in insertion order, the module variable [esp32Socket],
    [mongoose.connection.readyState] and the collection. *)
Record state : Type := {
  sockets : gmap nat WebSocket;
  clients : list sock;
  next_socket : sock;
  esp32Socket : option sock;
  mongo_readyState : Z;
  MotorLogs : list MotorLog;
}.

Definition initial : state := {|
  sockets := ∅;
  clients := [];
  next_socket := 0%nat;
  esp32Socket := None;
  mongo_readyState := 0;
  MotorLogs := [];
|}.

Definition sock_isEsp32 (s : state) (c : sock) : bool :=
  match sockets s !! c with
  | Some o => isEsp32 o
  | None => false
  end.

Definition sock_readyState (s : state) (c : sock) : ready_state :=
  match sockets s !! c with
  | Some o => readyState o
  | None => CLOSED
  end.

Definition is_open (s : state) (c : sock) : bool :=
  bool_decide (sock_readyState s c = OPEN).

(** *** What a handler does to the outside *)

(** The messages the relay serialises with [JSON.stringify] and sends. *)
Inductive out_msg : Type :=
  | msg_logHistory (payload : list MotorLog)
  | msg_error (message : string)
  | msg_statusUpdate (payload : jsval)
  | msg_envelope (data : json)
  | msg_pong
  | msg_serverStatus (deviceOnline : bool)
  | msg_force_status_update.

Inductive level : Type := Log | Warn | Error.

(** The arguments and template parts of a console call. *)
Inductive piece : Type :=
  | Txt (s : string)
  | Num (n : Z)
  | Err.

Inductive effect : Type :=
  | Send (to : sock) (m : out_msg)
  | Console (lvl : level) (text : list piece).

(** The sends of a trace, without the console lines. *)
Definition sends (out : list effect) : list (sock * out_msg) :=
  omap (fun e => match e with Send c m => Some (c, m) | Console _ _ => None end) out.

(** *** The handler monad: state, trace and a thrown TypeError *)

Definition M (A : Type) : Type := state -> completion A * state * list effect.

#[global] Instance M_ret : MRet M := fun A a s => (Normal a, s, []).

#[global] Instance M_bind : MBind M := fun A B f m s =>
  match m s with
  | (Normal a, s1, out1) =>
      let '(r, s2, out2) := f a s1 in (r, s2, out1 ++ out2)
  | (Throw, s1, out1) => (Throw, s1, out1)
  end.

Definition throw {A} : M A := fun s => (Throw, s, []).

(** An expression that reads no state and writes nothing. *)
Definition lift {A} (c : completion A) : M A :=
  match c with
  | Normal a => mret a
  | Throw => throw
  end.
Definition gets {A} (f : state -> A) : M A := fun s => (Normal (f s), s, []).
Definition modify (f : state -> state) : M unit := fun s => (Normal (), f s, []).
Definition emit (e : effect) : M unit := fun s => (Normal (), s, [e]).

Definition console (lvl : level) (text : list piece) : M unit :=
  emit (Console lvl text).
Definition send (to : sock) (m : out_msg) : M unit := emit (Send to m).

Fixpoint forEach (l : list sock) (f : sock -> M unit) : M unit :=
  match l with
  | [] => mret ()
  | c :: rest => f c ;; forEach rest f
  end.

Definition with_esp32Socket (v : option sock) (s : state) : state := {|
  sockets := sockets s; clients := clients s; next_socket := next_socket s;
  esp32Socket := v;
  mongo_readyState := mongo_readyState s; MotorLogs := MotorLogs s |}.

Definition with_sockets (h : gmap nat WebSocket) (s : state) : state := {|
  sockets := h; clients := clients s; next_socket := next_socket s;
  esp32Socket := esp32Socket s;
  mongo_readyState := mongo_readyState s; MotorLogs := MotorLogs s |}.

Definition with_clients (l : list sock) (s : state) : state := {|
  sockets := sockets s; clients := l; next_socket := next_socket s;
  esp32Socket := esp32Socket s;
  mongo_readyState := mongo_readyState s; MotorLogs := MotorLogs s |}.

Definition with_mongo_readyState (r : Z) (s : state) : state := {|
  sockets := sockets s; clients := clients s; next_socket := next_socket s;
  esp32Socket := esp32Socket s;
  mongo_readyState := r; MotorLogs := MotorLogs s |}.

Definition with_MotorLogs (l : list MotorLog) (s : state) : state := {|
  sockets := sockets s; clients := clients s; next_socket := next_socket s;
  esp32Socket := esp32Socket s;
  mongo_readyState := mongo_readyState s; MotorLogs := l |}.

(** [esp32Socket = v]. *)
Definition set_esp32Socket (v : option sock) : M unit :=
  modify (with_esp32Socket v).

(** The collection after a write of the store. *)
Definition set_MotorLogs (l : list MotorLog) : M unit :=
  modify (with_MotorLogs l).

Definition flag_isEsp32 (o : WebSocket) : WebSocket :=
  {| isEsp32 := true; readyState := readyState o |}.

(** [ws.isEsp32 = true]. *)
Definition mark_isEsp32 (ws : sock) : M unit :=
  modify (fun s => with_sockets (alter flag_isEsp32 ws (sockets s)) s).

(** [v.k] as an expression: a TypeError on [null]. *)
Definition member (v : json) (k : string) : M jsval :=
  match v with
  | JNull => throw
  | _ => mret (prop v k)
  end.

(* ===================================================================== *)
(** ** Events *)
(* ===================================================================== *)

(** The two relays: [src/server.js] and [src/backup/Server/server.js]. *)
Inductive variant : Type := Deployed | Backup.

(** What happens to the process: a client connects ([wss.on('connection')]
    with a new [ws] object), a text frame arrives on a connection, the
    ['close'] event of a connection, the [ws] library moves a connection to
    another transport state (say [CLOSING]) and mongoose moves to another
    connection state. *)
Inductive event : Type :=
  | connection
  | message (ws : sock) (frame : string) (now : Z) (db_ok : bool)
  | close (ws : sock)
  | transport (ws : sock) (r : ready_state)
  | mongoose_state (r : Z).
Arguments message ws%_nat frame%_string now%_Z db_ok.
Arguments close ws%_nat.
Arguments transport ws%_nat r.

(* ===================================================================== *)
(** ** The handlers *)
(* ===================================================================== *)

(** A ['message'] handler is an [async] function. The one store call it
    awaits is taken with its outcome: [db_ok] says whether the store
    fulfils the promise (a rejection stands for a lost connection or any
    other failure of the store); a document or a filter that mongoose
    itself refuses rejects the promise whatever [db_ok] says
    ([new_MotorLog], [cast_ok]). What follows the
    [await] only logs and sends to the requester, it reads and writes no
    routing state, so the handler is run to its end as one step. [now] is
    [Date.now()] at the time of the call. [ws.send] is recorded as a [Send]
    whatever the state of the target; the broadcast and the forwarding test
    [readyState] themselves. *)

Section Relay.

Context (rt : runtime).

(** *** Common to [src/server.js] and [src/backup/Server/server.js] *)

(** [data.type === 'esp32-identify']. *)
Definition handle_identify (ws : sock) : M unit :=
  console Log [Txt "ESP32 Connected."];;
  set_esp32Socket (Some ws);;
  mark_isEsp32 ws.

(** [data.type === 'uploadLog']. Destructuring [data.payload] throws when it
    is [undefined] or [null]; the template literal of the log line throws
    when [mac] or [duration] has no text. [create] is rejected when the
    store fails or a field is refused by the schema. *)
Definition handle_uploadLog (data : json) (now : Z) (db_ok : bool) : M unit :=
  match prop data "payload" with
  | None | Some JNull => throw
  | Some payload =>
      mac ← lift (to_text (prop payload "mac"));
      duration ← lift (to_text (prop payload "duration"));
      console Log [Txt "Log received from "; Txt mac; Txt ": "; Txt duration];;
      rs ← gets mongo_readyState;
      if rs =? 1 then
        match new_MotorLog payload now with
        | Normal doc =>
            if db_ok then
              logs ← gets MotorLogs;
              set_MotorLogs (logs ++ [doc]);;
              console Log [Txt "Log saved to DB."]
            else console Error [Txt "DB Save Fail:"; Err]
        | Throw => console Error [Txt "DB Save Fail:"; Err]
        end
      else
        console Error
          [Txt "Log Dropped: MongoDB NOT Connected (State: "; Num rs; Txt ")"]
  end.

(** [data.payload || {}]. *)
Definition payload_or_empty (data : json) : json :=
  match prop data "payload" with
  | Some p => if truthy (Some p) then p else JObj []
  | None => JObj []
  end.

(** The [end] of the range: [new Date(endDate)] moved by
    [end.setDate(end.getDate() + 1)]. *)
Definition end_of_day (endDate : jsval) : completion JsDate.date :=
  end_ ← new_Date rt endDate;
  Normal (setDate rt end_ (plus1 (getDate rt end_))).

(** The [query] of [getLogs]; [Throw] when a [new Date] throws. *)
Definition getLogs_query (startDate endDate : jsval) : completion query :=
  if truthy startDate || truthy endDate then
    gte ← (if truthy startDate then Some <$> new_Date rt startDate
           else Normal None);
    lt ← (if truthy endDate then Some <$> end_of_day endDate
          else Normal None);
    Normal (Some {| gte := gte; lt := lt |})
  else Normal None.

(** The [if (mongoose.connection.readyState === 1)] of [getLogs];
    [reply_on_failure] is the [ws.send] of the [catch] block, where there
    is one. *)
Definition query_logs (ws : sock) (q : query) (db_ok : bool)
    (reply_on_failure : option out_msg) : M unit :=
  rs ← gets mongo_readyState;
  if rs =? 1 then
    if db_ok && cast_ok q then
      logs ← gets MotorLogs;
      send ws (msg_logHistory (find_sort_limit q logs))
    else
      console Error [Txt "DB Query Fail:"; Err];;
      match reply_on_failure with
      | Some m => send ws m
      | None => mret ()
      end
  else send ws (msg_logHistory []).

(** [data.type === 'statusUpdate' && ws.isEsp32]: the [forEach] over
    [wss.clients]. *)
Definition handle_statusUpdate (data : json) : M unit :=
  cs ← gets clients;
  forEach cs (fun client =>
    flagged ← gets (fun s => sock_isEsp32 s client);
    open ← gets (fun s => is_open s client);
    if negb flagged && open
    then send client (msg_statusUpdate (prop data "payload"))
    else mret ()).

(** [data.type === 'command']. The template literal of the first log line
    throws when [data.command] or [data.value] has no text. *)
Definition handle_command (ws : sock) (data : json) : M unit :=
  command ← lift (to_text (prop data "command"));
  value ← lift (to_text (prop data "value"));
  console Log [Txt "[CMD] Received: "; Txt command; Txt " Value: "; Txt value];;
  dev ← gets esp32Socket;
  match dev with
  | Some d =>
      r ← gets (fun s => sock_readyState s d);
      if bool_decide (r = OPEN) then
        send d (msg_envelope data);;
        console Log [Txt "[CMD] Forwarded to ESP32 (State: OPEN)"]
      else
        console Warn [Txt "[CMD] Failed: ESP32 Socket exists but State is ";
                      Num (ready_code r)];;
        send ws (msg_error "Device Disconnected (Socket Closed).");;
        set_esp32Socket None
  | None =>
      console Warn [Txt "[CMD] Failed: ESP32 Socket is NULL."];;
      send ws (msg_error "Device Offline (No Socket).")
  end.

(** The tail of the [else if] chain both files share. *)
Definition status_or_command (ws : sock) (data : json) (ty : jsval)
    (otherwise : M unit) : M unit :=
  flagged ← gets (fun s => sock_isEsp32 s ws);
  if is_str ty "statusUpdate" && flagged then handle_statusUpdate data
  else if is_str ty "command" then handle_command ws data
  else otherwise.

(** [ws.on('close', ...)]. *)
Definition on_close (ws : sock) : M unit :=
  flagged ← gets (fun s => sock_isEsp32 s ws);
  if (flagged : bool) then
    set_esp32Socket None;;
    console Log [Txt "ESP32 Disconnected."]
  else mret ().

(** *** [src/server.js] *)

Definition handle_getLogs (ws : sock) (data : json) (db_ok : bool) : M unit :=
  let p := payload_or_empty data in
  q ← lift (getLogs_query (prop p "startDate") (prop p "endDate"));
  query_logs ws q db_ok None.

Definition handle_clearLogs (ws : sock) (db_ok : bool) : M unit :=
  rs ← gets mongo_readyState;
  if rs =? 1 then
    if db_ok then
      logs ← gets MotorLogs;
      set_MotorLogs (deleteMany None logs).1;;
      console Log [Txt "All logs cleared from DB."];;
      send ws (msg_logHistory [])
    else console Error [Txt "DB Clear Fail:"; Err]
  else mret ().

Definition on_message (ws : sock) (frame : string) (now : Z) (db_ok : bool)
    : M unit :=
  match JSON_parse rt frame with
  | None => console Error [Txt "JSON Error:"; Err]
  | Some data =>
      ty ← member data "type";
      if is_str ty "esp32-identify" then handle_identify ws
      else if is_str ty "uploadLog" then handle_uploadLog data now db_ok
      else if is_str ty "getLogs" then handle_getLogs ws data db_ok
      else if is_str ty "clearLogs" then handle_clearLogs ws db_ok
      else status_or_command ws data ty (mret ())
  end.

(** *** [src/backup/Server/server.js] *)

Definition handle_getLogs_backup (ws : sock) (data : json) (db_ok : bool)
    : M unit :=
  let p := payload_or_empty data in
  let startDate := prop p "startDate" in
  let endDate := prop p "endDate" in
  if negb (truthy startDate) || negb (truthy endDate) then
    console Warn [Txt "Log Fetch Denied: Missing Date Range"];;
    send ws (msg_error "Date Range Required")
  else
    q ← lift (getLogs_query startDate endDate);
    query_logs ws q db_ok
      (Some (msg_error "Database Error. Check Server Logs.")).

(** The [match] of [deleteLogs]: a range only when both bounds are given.
    [setDate] returns the new time value, from which [new Date] makes the
    bound; [Throw] when one of the three [new Date] of a value of the
    message throws. *)
Definition deleteLogs_match (startDate endDate : jsval) : completion query :=
  if truthy startDate && truthy endDate then
    start ← new_Date rt startDate;
    end_ ← new_Date rt endDate;
    end' ← new_Date rt endDate;
    Normal (Some {| gte := Some start;
                    lt := Some
                      match setDate rt end_ (plus1 (getDate rt end')) with
                      | Some t => JsDate.TimeClip t
                      | None => None
                      end |})
  else Normal None.

Definition handle_deleteLogs_backup (ws : sock) (data : json) (db_ok : bool)
    : M unit :=
  let p := payload_or_empty data in
  match_ ← lift (deleteLogs_match (prop p "startDate") (prop p "endDate"));
  rs ← gets mongo_readyState;
  if rs =? 1 then
    if db_ok && cast_ok match_ then
      logs ← gets MotorLogs;
      let result := deleteMany match_ logs in
      set_MotorLogs result.1;;
      console Log [Txt "Deleted "; Num result.2; Txt " logs."];;
      send ws (msg_error ("Deleted " +:+ pretty result.2 +:+ " logs."));;
      match match_ with
      | None => send ws (msg_logHistory [])
      | Some _ => mret ()
      end
    else
      console Error [Txt "DB Clear Fail:"; Err];;
      send ws (msg_error "Delete Failed.")
  else mret ().

Definition handle_requestStatus (ws : sock) : M unit :=
  dev ← gets esp32Socket;
  match dev with
  | Some d =>
      open ← gets (fun s => is_open s d);
      if (open : bool) then
        send ws (msg_serverStatus true);;
        send d msg_force_status_update
      else send ws (msg_serverStatus false)
  | None => send ws (msg_serverStatus false)
  end.

Definition on_message_backup (ws : sock) (frame : string) (now : Z)
    (db_ok : bool) : M unit :=
  match JSON_parse rt frame with
  | None => console Error [Txt "JSON Error:"; Err]
  | Some data =>
      ty ← member data "type";
      if is_str ty "esp32-identify" then handle_identify ws
      else if is_str ty "uploadLog" then handle_uploadLog data now db_ok
      else if is_str ty "getLogs" then handle_getLogs_backup ws data db_ok
      else if is_str ty "deleteLogs" || is_str ty "clearLogs"
      then handle_deleteLogs_backup ws data db_ok
      else
        status_or_command ws data ty
          (if is_str ty "ping" then send ws msg_pong
           else if is_str ty "requestStatus" then handle_requestStatus ws
           else mret ())
  end.

(** *** The event loop *)

Definition message_handler (v : variant)
    : sock -> string -> Z -> bool -> M unit :=
  match v with
  | Deployed => on_message
  | Backup => on_message_backup
  end.

Definition set_readyState (ws : sock) (r : ready_state) (s : state) : state :=
  with_sockets
    (alter (fun o => {| isEsp32 := isEsp32 o; readyState := r |}) ws (sockets s))
    s.

Definition accept (s : state) : state := {|
  sockets := <[next_socket s := {| isEsp32 := false; readyState := OPEN |}]>
               (sockets s);
  clients := clients s ++ [next_socket s];
  next_socket := S (next_socket s);
  esp32Socket := esp32Socket s;
  mongo_readyState := mongo_readyState s;
  MotorLogs := MotorLogs s |}.

Definition is_client (s : state) (ws : sock) : bool :=
  bool_decide (ws ∈ clients s).

(** Frames and state changes only come for a connection that has not
    closed; the library takes a closing connection out of [wss.clients]
    and marks it [CLOSED] before the relay's own ['close'] listener runs. *)
Definition step (v : variant) (ev : event) : M unit :=
  match ev with
  | connection =>
      modify accept;;
      console Log [Txt "Client connected."]
  | message ws frame now db_ok =>
      live ← gets (fun s => is_client s ws);
      if (live : bool) then message_handler v ws frame now db_ok else mret ()
  | close ws =>
      live ← gets (fun s => is_client s ws);
      if (live : bool) then
        modify (fun s =>
          with_clients (List.filter (fun c => negb (Nat.eqb c ws)) (clients s))
                       (set_readyState ws CLOSED s));;
        on_close ws
      else mret ()
  | transport ws r =>
      live ← gets (fun s => is_client s ws);
      if (live : bool) then modify (set_readyState ws r) else mret ()
  | mongoose_state r => modify (with_mongo_readyState r)
  end.

(** A handler that throws rejects its promise; the loop goes on with the
    state the handler left, as a process does that survives an unhandled
    rejection. Where the host ends the process there, what the process
    does is a run up to that event: [run_until_rejection]. *)
Definition exec {A} (m : M A) (s : state) : state * list effect :=
  let '(_, s', out) := m s in (s', out).

Fixpoint run (v : variant) (evs : list event) (s : state)
    : state * list effect :=
  match evs with
  | [] => (s, [])
  | ev :: rest =>
      let '(s1, out1) := exec (step v ev) s in
      let '(s2, out2) := run v rest s1 in
      (s2, out1 ++ out2)
  end.

Definition reachable (v : variant) (s : state) : Prop :=
  exists evs, (run v evs initial).1 = s.

(** The loop on a host that ends the process at an unhandled rejection:
    the events after a handler that throws find no process. *)
Fixpoint run_until_rejection (v : variant) (evs : list event) (s : state)
    : state * list effect :=
  match evs with
  | [] => (s, [])
  | ev :: rest =>
      match step v ev s with
      | (Normal _, s1, out1) =>
          let '(s2, out2) := run_until_rejection v rest s1 in
          (s2, out1 ++ out2)
      | (Throw, s1, out1) => (s1, out1)
      end
  end.

End Relay.

Arguments on_message rt ws%_nat frame%_string now%_Z db_ok.
Arguments on_message_backup rt ws%_nat frame%_string now%_Z db_ok.
Arguments message_handler rt v ws%_nat frame%_string now%_Z db_ok.
Arguments handle_deleteLogs_backup rt ws%_nat data db_ok.
Arguments is_client s ws%_nat.
Arguments is_open s c%_nat.
Arguments sock_isEsp32 s c%_nat.
Arguments sock_readyState s c%_nat.

(* ===================================================================== *)
(** ** Two concrete runtimes *)
(* ===================================================================== *)

(** The theorems hold for every runtime. To run the relay on examples, the
    runtime is instantiated with a reader of the JSON fragment the protocol
    uses (objects, arrays, strings without escapes, integers, literals) and
    with two hosts: one on UTC, one on the 2024 rules of America/New_York.
    On a text of that fragment the reader gives what [JSON.parse] gives; a
    text with an escape, a fraction or an exponent it does not read, and
    the examples use none. *)
Module Sample.

Definition dquote : ascii := ascii_of_nat 34.

Definition is_space (a : ascii) : bool :=
  let n := nat_of_ascii a in
  (n =? 32)%nat || (n =? 9)%nat || (n =? 10)%nat || (n =? 13)%nat.

Fixpoint skip_ws (cs : list ascii) : list ascii :=
  match cs with
  | a :: r => if is_space a then skip_ws r else cs
  | [] => []
  end.

(** The characters up to the closing quote; a control character is
    refused, an escape is outside the fragment. *)
Fixpoint read_string (cs : list ascii) : option (string * list ascii) :=
  match cs with
  | [] => None
  | a :: r =>
      if Ascii.eqb a dquote then Some (EmptyString, r)
      else if Ascii.eqb a "\"%char then None
      else if (nat_of_ascii a <? 32)%nat then None
      else match read_string r with
           | Some (s, r') => Some (String a s, r')
           | None => None
           end
  end.

Fixpoint read_digits (acc : Z) (cs : list ascii) : Z * list ascii :=
  match cs with
  | a :: r =>
      match JsDate.digit a with
      | Some d => read_digits (10 * acc + d) r
      | None => (acc, cs)
      end
  | [] => (acc, [])
  end.

(** An integer numeral; after a leading [0] no digit may follow. *)
Definition read_number (cs : list ascii) : option (Z * list ascii) :=
  match cs with
  | a :: r =>
      match JsDate.digit a with
      | Some d => if d =? 0 then Some (0, r) else Some (read_digits d r)
      | None => None
      end
  | [] => None
  end.

Fixpoint read_value (fuel : nat) (cs : list ascii) : option (json * list ascii) :=
  match fuel with
  | O => None
  | S fuel =>
      match skip_ws cs with
      | "n"%char :: "u"%char :: "l"%char :: "l"%char :: r => Some (JNull, r)
      | "t"%char :: "r"%char :: "u"%char :: "e"%char :: r => Some (JBool true, r)
      | "f"%char :: "a"%char :: "l"%char :: "s"%char :: "e"%char :: r => Some (JBool false, r)
      | "["%char :: r =>
          match skip_ws r with
          | "]"%char :: r' => Some (JArr [], r')
          | _ =>
              match read_elements fuel r with
              | Some (l, r') => Some (JArr l, r')
              | None => None
              end
          end
      | "{"%char :: r =>
          match skip_ws r with
          | "}"%char :: r' => Some (JObj [], r')
          | _ =>
              match read_members fuel r with
              | Some (l, r') => Some (JObj (rev l), r')
              | None => None
              end
          end
      | "-"%char :: r =>
          match read_number r with
          | Some (n, r') => Some (JNum (- n), r')
          | None => None
          end
      | a :: r =>
          if Ascii.eqb a dquote then
            match read_string r with
            | Some (s, r') => Some (JStr s, r')
            | None => None
            end
          else
            match read_number (a :: r) with
            | Some (n, r') => Some (JNum n, r')
            | None => None
            end
      | [] => None
      end
  end
with read_elements (fuel : nat) (cs : list ascii)
    : option (list json * list ascii) :=
  match fuel with
  | O => None
  | S fuel =>
      match read_value fuel cs with
      | Some (v, r) =>
          match skip_ws r with
          | ","%char :: r' =>
              match read_elements fuel r' with
              | Some (l, r'') => Some (v :: l, r'')
              | None => None
              end
          | "]"%char :: r' => Some ([v], r')
          | _ => None
          end
      | None => None
      end
  end
with read_members (fuel : nat) (cs : list ascii)
    : option (list (string * json) * list ascii) :=
  match fuel with
  | O => None
  | S fuel =>
      match skip_ws cs with
      | a :: r =>
          if Ascii.eqb a dquote then
            match read_string r with
            | Some (k, r1) =>
                match skip_ws r1 with
                | ":"%char :: r2 =>
                    match read_value fuel r2 with
                    | Some (v, r3) =>
                        match skip_ws r3 with
                        | ","%char :: r4 =>
                            match read_members fuel r4 with
                            | Some (l, r5) => Some ((k, v) :: l, r5)
                            | None => None
                            end
                        | "}"%char :: r4 => Some ([(k, v)], r4)
                        | _ => None
                        end
                    | None => None
                    end
                | _ => None
                end
            | None => None
            end
          else None
      | [] => None
      end
  end.

(** A later member of an object wins, so the members are kept last first. *)
Definition parse (frame : string) : option json :=
  let cs := list_ascii_of_string frame in
  match read_value (2 * List.length cs + 2) cs with
  | Some (v, r) => match skip_ws r with [] => Some v | _ => None end
  | None => None
  end.

(** Frames are written with ['] in place of the double quote. *)
Definition js (s : string) : string :=
  string_of_list_ascii
    (map (fun a => if Ascii.eqb a "'"%char then dquote else a)
         (list_ascii_of_string s)).

(** A host on UTC. *)
Definition utc : runtime := {|
  JSON_parse := parse;
  LocalTZA := fun _ _ => 0;
  Date_parse_other := fun _ => None;
|}.

(** America/New_York in 2024: UTC-5, and UTC-4 from 2024-03-10T07:00Z to
    2024-11-03T06:00Z. A local time is read with the offset before the
    transition where it is skipped or repeated. *)
Definition msPerHour : Z := 3600000.

Definition new_york_offset (t : Z) (isUTC : bool) : Z :=
  if isUTC then
    if (1710054000000 <=? t) && (t <? 1730613600000)
    then -4 * msPerHour else -5 * msPerHour
  else
    if (1710039600000 <=? t) && (t <? 1730599200000)
    then -4 * msPerHour else -5 * msPerHour.

Definition new_york : runtime := {|
  JSON_parse := parse;
  LocalTZA := new_york_offset;
  Date_parse_other := fun _ => None;
|}.

(** *** Frames and states of the examples *)

Definition identify : string := js "{'type':'esp32-identify'}".
Definition command_on : string :=
  js "{'type':'command','command':'MOTOR_ON','value':1}".
(** A command whose [command] is an object with a member [toString]. *)
Definition command_own_toString : string :=
  js "{'type':'command','command':{'toString':1}}".
Definition status_on : string :=
  js "{'type':'statusUpdate','payload':{'motorStatus':'ON'}}".
Definition upload : string :=
  js "{'type':'uploadLog','payload':{'mac':'AA:BB','onTime':'10:00','offTime':'10:05','duration':'5m'}}".
Definition getLogs_all : string := js "{'type':'getLogs'}".
Definition getLogs_march_10 : string :=
  js "{'type':'getLogs','payload':{'startDate':'2024-03-10','endDate':'2024-03-10'}}".
Definition deleteLogs_from_january : string :=
  js "{'type':'deleteLogs','payload':{'startDate':'2024-01-01'}}".
Definition truncated : string := js "{'type':".

(** Two dashboards, no device. *)
Definition two_dashboards : state :=
  (run utc Deployed [connection; connection] initial).1.

(** Connection 0 identified, then connection 1 did and holds
    [esp32Socket]; connection 2 is a dashboard. All three are open. *)
Definition two_devices : state :=
  (run utc Deployed
     [connection; connection; connection;
      message 0 identify 0 true; message 1 identify 0 true] initial).1.

(** The device is connection 0 and its transport is closing. *)
Definition device_closing : state :=
  (run utc Deployed
     [connection; connection; message 0 identify 0 true; transport 0 CLOSING]
     initial).1.

(** One client, the store connected and two entries in the collection. *)
Definition with_two_logs (v : variant) : state :=
  (run utc v
     [connection; mongoose_state 1;
      message 0 upload 1704067200000 true;
      message 0 upload 1704070800000 true] initial).1.

End Sample.

(* ===================================================================== *)
(** ** Notions the statements use *)
(* ===================================================================== *)

(** The trace [out1] in front of the trace of a result. *)
Definition prepend {A} (out1 : list effect)
    (r : completion A * state * list effect) : completion A * state * list effect :=
  let '(c, s, out) := r in (c, s, out1 ++ out).

(** The state and the trace after a list of events. *)
Definition after (rt : runtime) (v : variant) (evs : list event) (s : state)
    : state := (run rt v evs s).1.

Definition trace (rt : runtime) (v : variant) (evs : list event) (s : state)
    : list effect := (run rt v evs s).2.

(** Who gets a status broadcast: the clients that do not carry the device
    flag and are open, in the order of [wss.clients]. *)
Definition status_recipients (s : state) : list sock :=
  List.filter (fun c => negb (sock_isEsp32 s c) && is_open s c) (clients s).

Section Dispatch.

Context (rt : runtime).

(** The branches of the [if]/[else if] chain of the two ['message']
    listeners; [handle_statusUpdate] runs only for a flagged sender. *)
Inductive handler_of (s : state) (ws : sock) : M unit -> Prop :=
  | ho_malformed : handler_of s ws (console Error [Txt "JSON Error:"; Err])
  | ho_throw : handler_of s ws throw
  | ho_identify : handler_of s ws (handle_identify ws)
  | ho_uploadLog data now db_ok :
      handler_of s ws (handle_uploadLog data now db_ok)
  | ho_getLogs data db_ok : handler_of s ws (handle_getLogs rt ws data db_ok)
  | ho_clearLogs db_ok : handler_of s ws (handle_clearLogs ws db_ok)
  | ho_getLogs_backup data db_ok :
      handler_of s ws (handle_getLogs_backup rt ws data db_ok)
  | ho_deleteLogs_backup data db_ok :
      handler_of s ws (handle_deleteLogs_backup rt ws data db_ok)
  | ho_statusUpdate data :
      sock_isEsp32 s ws = true -> handler_of s ws (handle_statusUpdate data)
  | ho_command data : handler_of s ws (handle_command ws data)
  | ho_ping : handler_of s ws (send ws msg_pong)
  | ho_requestStatus : handler_of s ws (handle_requestStatus ws)
  | ho_ignored : handler_of s ws (mret ()).

End Dispatch.

(** A property of the state that survives the three writes a handler can
    make: to the collection, [esp32Socket = null], and the two assignments
    of [esp32-identify]. *)
Record handler_invariant (ws : sock) (I : state -> Prop) : Prop := {
  hi_logs : forall l s, I s -> I (with_MotorLogs l s);
  hi_evict : forall s, I s -> I (with_esp32Socket None s);
  hi_identify : forall s, I s ->
    I (with_sockets (alter flag_isEsp32 ws (sockets (with_esp32Socket (Some ws) s)))
         (with_esp32Socket (Some ws) s));
}.

(** In every state the relay reaches: the connection [esp32Socket] points
    at carries the device flag, a [ws] object is older than the next one,
    and the clients have their [ws] object. *)
Record routing_ok (s : state) : Prop := {
  device_flagged : forall d, esp32Socket s = Some d -> sock_isEsp32 s d = true;
  sockets_fresh : forall c, is_Some (sockets s !! c) -> (c < next_socket s)%nat;
  clients_alive : forall c, c ∈ clients s -> is_Some (sockets s !! c);
}.

(* ===================================================================== *)
(** ** The firmware: [src/backup/Esp32code/farmwire.ino] *)
(* ===================================================================== *)

(** The functions of the device agent that build what the relay receives.
    An [unsigned long] has 32 bits on the ESP32; a [time_t] is a number of
    seconds, kept as an integer, and its conversion to [unsigned long] is
    the remainder modulo 2^32. *)
Module Firmware.

Definition to_unsigned_long (x : Z) : N := Z.to_N (x mod 4294967296).

(** [formatDuration]; [String(n)] is the decimal numeral of [n]. *)
Definition formatDuration (totalSeconds : N) : string :=
  if (totalSeconds <? 60)%N then pretty totalSeconds +:+ "s"
  else
    let h := (totalSeconds / 3600)%N in
    let totalSeconds := (totalSeconds mod 3600)%N in
    let m := (totalSeconds / 60)%N in
    let s := (totalSeconds mod 60)%N in
    let d := "" in
    let d := if (0 <? h)%N then d +:+ (pretty h +:+ "h ") else d in
    let d := if (0 <? m)%N then d +:+ (pretty m +:+ "m ") else d in
    d +:+ (pretty s +:+ "s").

(** *** Local time and [strftime] *)

(** [configTime(gmtOffset_sec, daylightOffset_sec, ntpServer)] puts the
    device on a fixed offset from UTC; the clock is only trusted
    ([timeSynced]) once that has happened. *)
Definition gmtOffset_sec : Z := 6 * 3600.
Definition daylightOffset_sec : Z := 0.

(** The fields of [localtime(&t)] that the format reads. *)
Record tm : Type := {
  tm_mday : Z;   (* 1..31 *)
  tm_mon : Z;    (* 0..11 *)
  tm_hour : Z;   (* 0..23 *)
  tm_min : Z;    (* 0..59 *)
}.

Definition localtime (t : Z) : tm :=
  let local := t + gmtOffset_sec + daylightOffset_sec in
  let ms := local * 1000 in
  let secs := local mod 86400 in
  {| tm_mday := JsDate.DateFromTime ms;
     tm_mon := JsDate.MonthFromTime ms;
     tm_hour := secs / 3600;
     tm_min := (secs mod 3600) / 60 |}.

(** A field printed with two digits. *)
Definition two_digits (n : Z) : string :=
  if n <? 10 then "0" +:+ pretty n else pretty n.

(** The expansion of the format ["%d/%m %I:%M%p"]. *)
Definition expand_format (t : tm) : string :=
  two_digits (tm_mday t) +:+ "/" +:+ two_digits (tm_mon t + 1) +:+ " "
  +:+ two_digits (if tm_hour t mod 12 =? 0 then 12 else tm_hour t mod 12)
  +:+ ":" +:+ two_digits (tm_min t)
  +:+ (if tm_hour t <? 12 then "AM" else "PM").

(** [strftime(buf, maxsize, "%d/%m %I:%M%p", t)]: the text with its
    terminating zero has to fit in [maxsize] characters, else the content
    of the buffer is indeterminate ([None]). *)
Definition strftime (maxsize : nat) (t : tm) : option string :=
  if (String.length (expand_format t) <? maxsize)%nat
  then Some (expand_format t) else None.

(** *** [addMotorLog] *)

(** What the function reads besides its arguments. *)
Record link : Type := {
  timeSynced : bool;
  isConnected : bool;        (* webSocket.isConnected() *)
  WiFi_macAddress : string;  (* WiFi.macAddress() *)
}.

Inductive output : Type :=
  | Serial_print (s : string)
  | Serial_println (s : string)
  | sendTXT (doc : json).

(** The document of an upload.  A key is looked up from the left, so the
    key that is set last stands first. *)
Definition uploadLog_doc (mac onTimeStr offTimeStr duration : string) : json :=
  JObj [("payload", JObj [("duration", JStr duration);
                          ("offTime", JStr offTimeStr);
                          ("onTime", JStr onTimeStr); ("mac", JStr mac)]);
        ("type", JStr "uploadLog")].

(** [None]: the function would read a buffer [strftime] could not fill. *)
Definition addMotorLog (env : link) (onTimestamp offTimestamp : Z)
    : option (list output) :=
  let head :=
    [Serial_print "Attempting to Log... Synced: ";
     Serial_println (if timeSynced env then "1" else "0")] in
  if negb (timeSynced env) || (onTimestamp =? 0) || (offTimestamp <? onTimestamp)
  then Some (head ++ [Serial_println "Log Failed: Time issue or invalid timestamp"])
  else
    let duration := to_unsigned_long (offTimestamp - onTimestamp) in
    if (86400 <? duration)%N then Some head
    else
      match strftime 20 (localtime onTimestamp),
            strftime 20 (localtime offTimestamp) with
      | Some onTimeStr, Some offTimeStr =>
          let log :=
            [Serial_print "Log: "; Serial_print (pretty duration);
             Serial_println "s"] in
          if isConnected env then
            Some (head ++ log ++
                  [sendTXT (uploadLog_doc (WiFi_macAddress env) onTimeStr
                              offTimeStr (formatDuration duration));
                   Serial_println "Log Sent to Server"])
          else
            Some (head ++ log ++ [Serial_println "Log Failed: WS Not Connected"])
      | _, _ => None
      end.

(** *** [sendStatusUpdate] *)

(** Arduino's [map] and [constrain] on [long]; the division is C's. *)
Definition map (x in_min in_max out_min out_max : Z) : Z :=
  (x - in_min) * (out_max - out_min) ÷ (in_max - in_min) + out_min.

Definition constrain (amt low high : Z) : Z :=
  if amt <? low then low else if high <? amt then high else amt.

(** The globals the function reads and writes. *)
Record status : Type := {
  Motor_Stat : string;
  System_Mode : string;
  Door_Stat : string;
  lastAction : string;
  wifiSignal : Z;
  lastMotorStatus : string;
  lastDoorStatus : string;
  websocket_server_host : string;
}.

(** What it reads from the hardware and the network. *)
Record readings : Type := {
  SWITCH_SECURITY_low : bool;   (* digitalRead(SWITCH_SECURITY) == LOW *)
  WiFi_RSSI : Z;
  WiFi_localIP : string;        (* WiFi.localIP().toString() *)
  webSocket_isConnected : bool;
}.

Definition statusUpdate_doc (g : status) (ip : string) : json :=
  JObj [("payload",
         JObj [("wsHost", JStr (websocket_server_host g));
               ("localIP", JStr ip);
               ("wifiSignal", JNum (wifiSignal g));
               ("lastAction", JStr (lastAction g));
               ("doorStatus", JStr (Door_Stat g));
               ("systemMode", JStr (System_Mode g));
               ("motorStatus", JStr (Motor_Stat g))]);
        ("type", JStr "statusUpdate")].

Definition sendStatusUpdate (r : readings) (g : status) : status * list output :=
  let g' := {|
    Motor_Stat := lastMotorStatus g;
    System_Mode := if SWITCH_SECURITY_low r then "Secured" else "Normal";
    Door_Stat := lastDoorStatus g;
    lastAction := lastAction g;
    wifiSignal := constrain (map (WiFi_RSSI r) (-100) (-30) 0 100) 0 100;
    lastMotorStatus := lastMotorStatus g;
    lastDoorStatus := lastDoorStatus g;
    websocket_server_host := websocket_server_host g |} in
  (g', if webSocket_isConnected r
       then [sendTXT (statusUpdate_doc g' (WiFi_localIP r))] else []).

End Firmware.

(** A string of decimal digits. *)
Fixpoint all_digits (s : string) : bool :=
  match s with
  | EmptyString => true
  | String a r => bool_decide (is_Some (JsDate.digit a)) && all_digits r
  end.

(** The message types one of the two relays has a branch for. *)
Definition handled_types : list string :=
  ["esp32-identify"; "uploadLog"; "getLogs"; "clearLogs"; "deleteLogs";
   "statusUpdate"; "command"; "ping"; "requestStatus"].

(** Where a message of the relay may go from state [s], when the frame came
    from [ws]: a reply to the requester, a forward to the open device, a
    status to a recipient of the broadcast. *)
Definition routed (s : state) (ws c : sock) (m : out_msg) : Prop :=
  match m with
  | msg_logHistory _ | msg_error _ | msg_pong | msg_serverStatus _ => c = ws
  | msg_envelope _ | msg_force_status_update =>
      esp32Socket s = Some c /\ sock_readyState s c = OPEN
  | msg_statusUpdate _ => c ∈ status_recipients s
  end.

(** The connection in [esp32Socket] is a client. *)
Definition slot_is_client (s : state) : Prop :=
  forall d, esp32Socket s = Some d -> d ∈ clients s.

(** The connection [ws] has left [wss.clients] and its [ws] object is an
    old one. *)
Definition has_left (ws : sock) (s : state) : Prop :=
  (ws ∉ clients s) /\ (ws < next_socket s)%nat.

(** The messages the relay sends without waiting for the store: a status,
    a forwarded command, a request for a status. *)
Definition pushed (m : out_msg) : Prop :=
  match m with
  | msg_statusUpdate _ | msg_envelope _ | msg_force_status_update => True
  | _ => False
  end.

(** More frames and states for the examples. *)
Module SampleMore.

Import Sample.

Definition null_frame : string := "null".
Definition number_frame : string := "42".
Definition ping : string := js "{'type':'ping'}".
Definition requestStatus : string := js "{'type':'requestStatus'}".
Definition clearLogs : string := js "{'type':'clearLogs'}".
Definition getLogs_from_january : string :=
  js "{'type':'getLogs','payload':{'startDate':'2024-01-01'}}".
Definition getLogs_january_1 : string :=
  js "{'type':'getLogs','payload':{'startDate':'2024-01-01','endDate':'2024-01-01'}}".
Definition getLogs_since_yesterday : string :=
  js "{'type':'getLogs','payload':{'startDate':'yesterday'}}".
(** A query whose start date is an object with a member [toString]. *)
Definition getLogs_own_toString : string :=
  js "{'type':'getLogs','payload':{'startDate':{'toString':1}}}".
Definition deleteLogs_january_1 : string :=
  js "{'type':'deleteLogs','payload':{'startDate':'2024-01-01','endDate':'2024-01-01'}}".
Definition upload_without_payload : string := js "{'type':'uploadLog'}".
(** An upload whose [onTime] is an object. *)
Definition upload_object : string :=
  js "{'type':'uploadLog','payload':{'mac':'AA:BB','onTime':{'h':10},'offTime':'10:05','duration':'5m'}}".

(** The device is connection 0 and open; connection 1 is a dashboard. *)
Definition device_online : state :=
  (run utc Deployed [connection; connection; message 0 identify 0 true]
     initial).1.

(** A device as [addMotorLog] finds it: clock synced, socket connected. *)
Definition synced_and_connected : Firmware.link := {|
  Firmware.timeSynced := true;
  Firmware.isConnected := true;
  Firmware.WiFi_macAddress := "AA:BB:CC:DD:EE:FF" |}.

Definition readings_at (rssi : Z) : Firmware.readings := {|
  Firmware.SWITCH_SECURITY_low := false;
  Firmware.WiFi_RSSI := rssi;
  Firmware.WiFi_localIP := "192.168.0.10";
  Firmware.webSocket_isConnected := true |}.

Definition after_boot : Firmware.status := {|
  Firmware.Motor_Stat := "OFF";
  Firmware.System_Mode := "Normal";
  Firmware.Door_Stat := "Closed";
  Firmware.lastAction := "System Boot";
  Firmware.wifiSignal := 0;
  Firmware.lastMotorStatus := "OFF";
  Firmware.lastDoorStatus := "Closed";
  Firmware.websocket_server_host := "pumpv5.espserver.site" |}.

End SampleMore.

(* ===================================================================== *)
(** ** Running a handler *)
(* ===================================================================== *)

Section MonadLaws.

Context {A B : Type}.
Implicit Types (k : A -> M B) (s : state).

Lemma bind_ret (a : A) k s : (@mret M _ A a ≫= k) s = k a s.
Proof.
  unfold mbind, M_bind, mret, M_ret. by destruct (k a s) as [[c s'] out].
Qed.

Lemma bind_gets (f : state -> A) k s : (gets f ≫= k) s = k (f s) s.
Proof.
  unfold mbind, M_bind, gets. by destruct (k (f s) s) as [[c s'] out].
Qed.

Lemma bind_throw k s : (throw ≫= k) s = (Throw, s, []).
Proof. reflexivity. Qed.

Lemma bind_modify (g : state -> state) (k : unit -> M B) s :
  (modify g ≫= k) s = k () (g s).
Proof.
  unfold mbind, M_bind, modify. by destruct (k () (g s)) as [[c s'] out].
Qed.

Lemma bind_emit (e : effect) (k : unit -> M B) s :
  (emit e ≫= k) s = prepend [e] (k () s).
Proof. reflexivity. Qed.

End MonadLaws.

Lemma run_emit e s : emit e s = (Normal (), s, [e]).
Proof. reflexivity. Qed.

Lemma run_modify g s : modify g s = (Normal (), g s, []).
Proof. reflexivity. Qed.

Lemma run_ret {A} (a : A) s : @mret M _ A a s = (Normal a, s, []).
Proof. reflexivity. Qed.

Lemma run_throw {A} s : @throw A s = (Throw, s, []).
Proof. reflexivity. Qed.

Lemma lift_Normal {A} (a : A) : lift (Normal a) = mret a.
Proof. reflexivity. Qed.

Lemma lift_Throw {A} : @lift A Throw = throw.
Proof. reflexivity. Qed.

(** One pass of the monad laws over a handler applied to a state. *)
Ltac mrun :=
  unfold console, send, set_esp32Socket, set_MotorLogs, mark_isEsp32;
  repeat first
    [ rewrite lift_Normal | rewrite lift_Throw
    | rewrite bind_ret | rewrite bind_gets | rewrite bind_modify
    | rewrite bind_emit | rewrite bind_throw
    | rewrite run_emit | rewrite run_modify | rewrite run_ret
    | rewrite run_throw
    | progress cbn [prepend app is_str andb orb negb String.eqb Ascii.eqb
                    Bool.eqb] ].

(** The same, going into the branches of a handler. *)
Ltac mcase :=
  repeat first
    [ progress (unfold console, send, set_esp32Socket, set_MotorLogs, mark_isEsp32)
    | rewrite lift_Normal | rewrite lift_Throw
    | rewrite bind_ret | rewrite bind_gets | rewrite bind_modify
    | rewrite bind_emit | rewrite bind_throw
    | rewrite run_emit | rewrite run_modify | rewrite run_ret
    | rewrite run_throw
    | progress cbn [prepend app fst snd]
    | match goal with
      | |- context [lift ?c] => destruct c eqn:?
      | |- context [(if ?b then _ else _) _] => destruct b eqn:?
      | |- context [(match ?x with _ => _ end) _] => destruct x eqn:?
      end ].

(* ===================================================================== *)
(** ** Facts about the store *)
(* ===================================================================== *)

Section Store.

#[global] Instance newer_first_total : Total newer_first.
Proof. intros a b. unfold newer_first. lia. Qed.

#[global] Instance newer_first_trans : Transitive newer_first.
Proof. intros a b c. unfold newer_first. lia. Qed.

Lemma Sorted_take {A} (R : relation A) (l : list A) (n : nat) :
  Sorted R l -> Sorted R (take n l).
Proof.
  intros Hs. revert n.
  induction Hs as [|a l Hs IH Hhd]; intros [|n]; simpl; try constructor.
  - apply IH.
  - destruct Hhd as [|b l' Hab]; destruct n; simpl; constructor; done.
Qed.

Lemma find_sort_limit_length q coll :
  (List.length (find_sort_limit q coll) <= 100)%nat.
Proof. unfold find_sort_limit. rewrite length_take. lia. Qed.

Lemma find_sort_limit_sorted q coll :
  Sorted newer_first (find_sort_limit q coll).
Proof. apply Sorted_take, Sorted_merge_sort, _. Qed.

Lemma find_sort_limit_matches q coll e :
  e ∈ find_sort_limit q coll -> e ∈ coll /\ matches q e = true.
Proof.
  unfold find_sort_limit. intros He.
  apply (subseteq_take 100) in He.
  rewrite merge_sort_Permutation in He.
  apply list_elem_of_In, filter_In in He as [He Hm].
  by apply list_elem_of_In in He.
Qed.

Lemma filter_nothing {A} (l : list A) : List.filter (fun _ => false) l = [].
Proof. by induction l. Qed.

Lemma filter_matches_all coll : List.filter (matches None) coll = coll.
Proof. induction coll; simpl; congruence. Qed.

Lemma deleteMany_all coll :
  deleteMany None coll = ([], Z.of_nat (List.length coll)).
Proof.
  unfold deleteMany. rewrite filter_matches_all. f_equal. apply filter_nothing.
Qed.

End Store.

(* ===================================================================== *)
(** ** Facts about dates *)
(* ===================================================================== *)

Module JsDateFacts.
Import JsDate.

(** [YearFromTime] is the year ECMAScript asks for. *)
Lemma YearFromTime_spec t :
  DayFromYear (YearFromTime t) <= Day t < DayFromYear (YearFromTime t + 1).
Proof.
  unfold YearFromTime. generalize (Day t) as d. intros d.
  unfold DayFromYear.
  repeat case_match; rewrite ?Z.leb_le, ?Z.leb_gt, ?Z.ltb_lt, ?Z.ltb_ge in *;
    Z.to_euclidean_division_equations; lia.
Qed.

Lemma month_of_day_range leap dwy : 0 <= month_of_day leap dwy <= 11.
Proof. unfold month_of_day. repeat case_match; lia. Qed.

(** Another day of the month of [t], counted from the day of [t]. *)
Lemma MakeDay_same_month t k :
  MakeDay (YearFromTime t) (MonthFromTime t) (DateFromTime t + k) = Day t + k.
Proof.
  unfold MakeDay, DateFromTime.
  pose proof (month_of_day_range (InLeapYear t) (DayWithinYear t)) as Hm.
  fold (MonthFromTime t) in Hm.
  rewrite (Z.div_small (MonthFromTime t) 12), (Z.mod_small (MonthFromTime t) 12) by lia.
  rewrite Z.add_0_r. fold (InLeapYear t). unfold DayWithinYear. lia.
Qed.

Lemma MakeDate_next_day t :
  MakeDate (Day t + 1) (TimeWithinDay t) = t + msPerDay.
Proof.
  unfold MakeDate, Day, TimeWithinDay.
  pose proof (Z.div_mod t msPerDay). unfold msPerDay in *. lia.
Qed.

Lemma digit_range a x : digit a = Some x -> 0 <= x <= 9.
Proof.
  unfold digit. case_match eqn:H; [|done]. intros [= <-].
  apply andb_prop in H as [?%Z.leb_le ?%Z.leb_le]. lia.
Qed.

Lemma digits2_range a b x : digits2 a b = Some x -> 0 <= x <= 99.
Proof.
  unfold digits2.
  destruct (digit a) eqn:Ha; [|done]. destruct (digit b) eqn:Hb; [|done].
  intros [= <-]. apply digit_range in Ha, Hb. lia.
Qed.

Lemma digits4_range a b c d x : digits4 a b c d = Some x -> 0 <= x <= 9999.
Proof.
  unfold digits4.
  destruct (digits2 a b) eqn:Ha; [|done]. destruct (digits2 c d) eqn:Hb; [|done].
  intros [= <-]. apply digits2_range in Ha, Hb. lia.
Qed.

Lemma DaysInMonth_le y m : 0 <= m <= 11 -> DaysInMonth y m <= 31.
Proof.
  intros Hm. unfold DaysInMonth.
  assert (m = 0 \/ m = 1 \/ m = 2 \/ m = 3 \/ m = 4 \/ m = 5 \/ m = 6 \/
          m = 7 \/ m = 8 \/ m = 9 \/ m = 10 \/ m = 11) as Hcases by lia.
  destruct (DaysInYear y =? 366);
    repeat (destruct Hcases as [-> | Hcases]; [simpl; lia|]); subst; simpl; lia.
Qed.

Lemma iso_date_only_range s y m d :
  iso_date_only s = Some (y, m, d) ->
  0 <= y <= 9999 /\ 1 <= m <= 12 /\ 1 <= d <= 31.
Proof.
  unfold iso_date_only. intros H.
  repeat case_match; try discriminate. simplify_eq.
  repeat match goal with
    | H : _ && _ = true |- _ => apply andb_prop in H as [? ?]
    | H : (_ <=? _) = true |- _ => apply Z.leb_le in H
    end.
  match goal with H : digits4 _ _ _ _ = Some _ |- _ => apply digits4_range in H end.
  pose proof (DaysInMonth_le y (m - 1)). lia.
Qed.

Lemma iso_date_only_nonempty s ymd : iso_date_only s = Some ymd -> s <> "".
Proof. by intros H ->. Qed.

(** The years 0000 to 9999 are far inside the range of time values. *)
Lemma utc_midnight_range s ymd :
  iso_date_only s = Some ymd ->
  -62167219200000 <= utc_midnight ymd <= 253402300800000.
Proof.
  destruct ymd as [[y m] d]. intros (Hy & Hm & Hd)%iso_date_only_range.
  unfold utc_midnight, MakeDate, MakeDay.
  rewrite (Z.div_small (m - 1) 12), (Z.mod_small (m - 1) 12) by lia.
  assert (0 <= month_start (if DaysInYear (y + 0) =? 366 then 1 else 0) (m - 1) <= 335)
    as Hms.
  { assert (m = 1 \/ m = 2 \/ m = 3 \/ m = 4 \/ m = 5 \/ m = 6 \/ m = 7 \/
            m = 8 \/ m = 9 \/ m = 10 \/ m = 11 \/ m = 12) as Hcases by lia.
    destruct (DaysInYear (y + 0) =? 366);
      repeat (destruct Hcases as [-> | Hcases]; [simpl; lia|]); subst; simpl; lia. }
  revert Hms. generalize (month_start (if DaysInYear (y + 0) =? 366 then 1 else 0) (m - 1)).
  intros ms Hms. unfold DayFromYear, msPerDay.
  Z.to_euclidean_division_equations; lia.
Qed.

Lemma TimeClip_in_range t :
  -8640000000000000 <= t <= 8640000000000000 -> TimeClip t = Some t.
Proof.
  intros H. unfold TimeClip. by rewrite (proj2 (Z.leb_le _ _)) by lia.
Qed.

End JsDateFacts.

Section DateFacts.

Context (rt : runtime).
Import JsDate JsDateFacts.

(** [d.setDate(d.getDate() + 1)] is the same local time of day on the next
    local day, read back as UTC. *)
Lemma setDate_next_day t :
  setDate rt (Some t) (plus1 (getDate rt (Some t)))
  = TimeClip (UTC rt (LocalTime rt t + msPerDay)).
Proof.
  unfold setDate, getDate, plus1.
  by rewrite MakeDay_same_month, MakeDate_next_day.
Qed.

Lemma Date_parse_iso s ymd :
  iso_date_only s = Some ymd -> Date_parse rt s = Some (utc_midnight ymd).
Proof.
  intros H. unfold Date_parse. rewrite H.
  apply utc_midnight_range in H. apply TimeClip_in_range. lia.
Qed.

(** On a host whose offset from UTC never changes, the end of the range is
    00:00 UTC of the day after [endDate]. *)
Lemma end_of_day_fixed_offset off s ymd :
  (forall t isUTC, LocalTZA rt t isUTC = off) ->
  iso_date_only s = Some ymd ->
  end_of_day rt (Some (JStr s)) = Normal (Some (utc_midnight ymd + msPerDay)).
Proof.
  intros Hoff H. unfold end_of_day. simpl. f_equal.
  rewrite (Date_parse_iso _ _ H), setDate_next_day.
  unfold UTC, LocalTime. rewrite !Hoff.
  apply utc_midnight_range in H.
  replace (utc_midnight ymd + off + msPerDay - off)
    with (utc_midnight ymd + msPerDay) by lia.
  apply TimeClip_in_range. unfold msPerDay. lia.
Qed.

Lemma getLogs_query_fixed_offset off sd ed a b :
  (forall t isUTC, LocalTZA rt t isUTC = off) ->
  iso_date_only sd = Some a ->
  iso_date_only ed = Some b ->
  getLogs_query rt (Some (JStr sd)) (Some (JStr ed))
  = Normal (Some {| gte := Some (Some (utc_midnight a));
                    lt := Some (Some (utc_midnight b + msPerDay)) |}).
Proof.
  intros Hoff Ha Hb. unfold getLogs_query.
  assert (truthy (Some (JStr sd)) = true) as ->.
  { simpl. apply iso_date_only_nonempty in Ha. by destruct sd. }
  assert (truthy (Some (JStr ed)) = true) as ->.
  { simpl. apply iso_date_only_nonempty in Hb. by destruct ed. }
  cbn [orb]. rewrite (end_of_day_fixed_offset off _ _ Hoff Hb). simpl.
  by rewrite (Date_parse_iso _ _ Ha).
Qed.

(** With such a host the query selects the entries from 00:00 UTC of
    [startDate] up to, and without, 00:00 UTC of the day after [endDate]. *)
Lemma getLogs_selects_whole_days off sd ed a b :
  (forall t isUTC, LocalTZA rt t isUTC = off) ->
  iso_date_only sd = Some a ->
  iso_date_only ed = Some b ->
  exists q,
    getLogs_query rt (Some (JStr sd)) (Some (JStr ed)) = Normal q /\
    forall e,
      matches q e = true
      <-> utc_midnight a <= serverTime e < utc_midnight b + msPerDay.
Proof.
  intros Hoff Ha Hb. eexists. split.
  - apply (getLogs_query_fixed_offset off _ _ _ _ Hoff Ha Hb).
  - intros e. simpl. rewrite andb_true_iff, Z.leb_le, Z.ltb_lt. done.
Qed.

End DateFacts.

(* ===================================================================== *)
(** ** Facts about the handlers *)
(* ===================================================================== *)

Section RelayFacts.

Context (rt : runtime).

Lemma member_type data lit :
  prop data "type" = Some (JStr lit) ->
  member data "type" = mret (Some (JStr lit)).
Proof. destruct data; simpl; intros H; try discriminate. by rewrite H. Qed.

(** The [forEach] of a status broadcast leaves the state alone and sends
    to the recipients in order. *)
Lemma forEach_run (f : sock -> M unit) (g : sock -> list effect) l s :
  (forall c, f c s = (Normal (), s, g c)) ->
  forEach l f s = (Normal (), s, List.concat (map g l)).
Proof.
  intros Hf. induction l as [|c l IH]; [done|].
  cbn [forEach map List.concat]. unfold mbind, M_bind. by rewrite Hf, IH.
Qed.

Lemma handle_statusUpdate_run data s :
  handle_statusUpdate data s
  = (Normal (), s,
     map (fun c => Send c (msg_statusUpdate (prop data "payload")))
         (status_recipients s)).
Proof.
  unfold handle_statusUpdate, status_recipients. rewrite bind_gets.
  rewrite (forEach_run _
    (fun c => if negb (sock_isEsp32 s c) && is_open s c
              then [Send c (msg_statusUpdate (prop data "payload"))] else [])).
  - f_equal. induction (clients s) as [|c l IH]; [done|].
    cbn [map List.concat List.filter].
    destruct (negb (sock_isEsp32 s c) && is_open s c); simpl; by rewrite IH.
  - intros c. rewrite !bind_gets.
    by destruct (negb (sock_isEsp32 s c) && is_open s c).
Qed.

Lemma handle_statusUpdate_recipient s c :
  c ∈ status_recipients s
  <-> c ∈ clients s /\ sock_isEsp32 s c = false /\ sock_readyState s c = OPEN.
Proof.
  unfold status_recipients, is_open.
  rewrite !list_elem_of_In, filter_In, andb_true_iff, negb_true_iff,
    bool_decide_eq_true. done.
Qed.

(** *** Which handler a message runs *)

Lemma status_or_command_cases ws data ty otherwise s :
  handler_of rt s ws otherwise ->
  exists m, status_or_command ws data ty otherwise s = m s /\ handler_of rt s ws m.
Proof.
  intros Ho. unfold status_or_command. rewrite bind_gets.
  destruct (is_str ty "statusUpdate") eqn:Hty; simpl.
  - destruct (sock_isEsp32 s ws) eqn:Hflag.
    + eexists. split; [done|]. by constructor.
    + destruct (is_str ty "command"); eexists; (split; [done|]);
        first [done | constructor].
  - destruct (is_str ty "command"); eexists; (split; [done|]);
      first [done | constructor].
Qed.

Lemma message_handler_cases v ws frame now db_ok s :
  exists m, message_handler rt v ws frame now db_ok s = m s /\ handler_of rt s ws m.
Proof.
  destruct v; unfold message_handler, on_message, on_message_backup;
    (destruct (JSON_parse rt frame) as [data|];
      [|eexists; split; [done|]; constructor]);
    unfold member;
    (destruct data;
      [ exists throw; split; [done|]; constructor
      | rewrite bind_ret .. ]).
  all: repeat match goal with
    | |- context [if ?b then _ else _] =>
        destruct b; [eexists; split; [done|]; constructor|]
    end.
  all: apply status_or_command_cases.
  all: repeat match goal with
    | |- context [if ?b then _ else _] => destruct b
    end; constructor.
Qed.

(** *** What a handler does to the state *)

Lemma handler_of_preserves ws I s m :
  handler_invariant ws I -> handler_of rt s ws m -> I s -> I (m s).1.2.
Proof.
  intros [Hlogs Hevict Hident] Hm HI.
  destruct Hm;
    unfold handle_identify, handle_uploadLog, handle_getLogs,
      handle_getLogs_backup, query_logs, handle_clearLogs,
      handle_deleteLogs_backup, handle_requestStatus, handle_command;
    try rewrite handle_statusUpdate_run.
  all: mcase.
  all: eauto.
Qed.

(** A status message in the trace of a handler went to a recipient of the
    broadcast. *)
Lemma handler_of_status_sends ws s m c p :
  handler_of rt s ws m ->
  Send c (msg_statusUpdate p) ∈ (m s).2 ->
  c ∈ status_recipients s.
Proof.
  intros Hm. rewrite list_elem_of_In.
  destruct Hm;
    unfold handle_identify, handle_uploadLog, handle_getLogs,
      handle_getLogs_backup, query_logs, handle_clearLogs,
      handle_deleteLogs_backup, handle_requestStatus, handle_command;
    try rewrite handle_statusUpdate_run.
  all: mcase.
  all: try (simpl; intuition discriminate).
  intros (c' & [= -> _] & Hin)%in_map_iff. by apply list_elem_of_In.
Qed.

Lemma elem_of_sends c m out : (c, m) ∈ sends out <-> Send c m ∈ out.
Proof.
  unfold sends. rewrite list_elem_of_omap. split.
  - intros (e & He & Hsome). destruct e; by simplify_eq.
  - intros He. by exists (Send c m).
Qed.

(** *** The routing invariant *)

Lemma initial_routing_ok : routing_ok initial.
Proof.
  split; simpl.
  - done.
  - intros c [o Ho]. by rewrite lookup_empty in Ho.
  - intros c Hc. by apply elem_of_nil in Hc.
Qed.

Lemma flagged_is_Some s c : sock_isEsp32 s c = true -> is_Some (sockets s !! c).
Proof. unfold sock_isEsp32. destruct (sockets s !! c); [eauto|done]. Qed.

Lemma sock_isEsp32_flag h s ws c :
  sockets s = alter flag_isEsp32 ws h ->
  sock_isEsp32 s c =
    match h !! c with
    | Some o => if decide (ws = c) then true else isEsp32 o
    | None => false
    end.
Proof.
  intros Hs. unfold sock_isEsp32. rewrite Hs, lookup_alter.
  destruct (decide (ws = c)) as [->|]; by destruct (h !! c).
Qed.

Lemma sock_isEsp32_set_readyState ws r s c :
  sock_isEsp32 (set_readyState ws r s) c = sock_isEsp32 s c.
Proof.
  unfold sock_isEsp32, set_readyState. simpl. rewrite lookup_alter.
  case_decide; subst; by destruct (sockets s !! c).
Qed.

Lemma is_Some_set_readyState ws r s c :
  is_Some (sockets (set_readyState ws r s) !! c) <-> is_Some (sockets s !! c).
Proof.
  unfold set_readyState. simpl. rewrite lookup_alter.
  case_decide; subst; [|reflexivity]. by rewrite fmap_is_Some.
Qed.

Lemma routing_ok_handler_invariant ws :
  handler_invariant ws (fun s => routing_ok s /\ ws ∈ clients s).
Proof.
  split.
  - intros l s [[H1 H2 H3] Hws]. by repeat split.
  - intros s [[H1 H2 H3] Hws]. by repeat split.
  - intros s [[H1 H2 H3] Hws]. repeat split; simpl; [| | |done].
    + intros d [= <-]. erewrite sock_isEsp32_flag by done. simpl.
      destruct (H3 _ Hws) as [o ->]. by rewrite decide_True.
    + intros c. rewrite lookup_alter.
      case_decide; subst; [rewrite fmap_is_Some|]; apply H2.
    + intros c Hc. rewrite lookup_alter.
      case_decide; subst; [rewrite fmap_is_Some|]; by apply H3.
Qed.

Lemma flag_handler_invariant ws c :
  handler_invariant ws (fun s => sock_isEsp32 s c = true).
Proof.
  split; [done..|].
  intros s Hc. erewrite sock_isEsp32_flag by done. simpl.
  unfold sock_isEsp32 in Hc. destruct (sockets s !! c); [|done].
  by destruct (decide (ws = c)).
Qed.

Lemma exec_message v ws frame now db_ok s :
  exec (step rt v (message ws frame now db_ok)) s
  = if is_client s ws then exec (message_handler rt v ws frame now db_ok) s
    else (s, []).
Proof.
  unfold exec, step. rewrite bind_gets. by destruct (is_client s ws).
Qed.

Lemma exec_close v ws s :
  exec (step rt v (close ws)) s
  = if is_client s ws then
      exec (on_close ws)
        (with_clients (List.filter (fun c => negb (Nat.eqb c ws)) (clients s))
                      (set_readyState ws CLOSED s))
    else (s, []).
Proof.
  unfold exec, step. rewrite bind_gets.
  destruct (is_client s ws); [|done]. by rewrite bind_modify.
Qed.

Lemma exec_on_close ws s :
  exec (on_close ws) s
  = if sock_isEsp32 s ws
    then (with_esp32Socket None s, [Console Log [Txt "ESP32 Disconnected."]])
    else (s, []).
Proof.
  unfold exec, on_close. rewrite bind_gets.
  destruct (sock_isEsp32 s ws); [|done]. by mrun.
Qed.

Lemma step_routing_ok v ev s :
  routing_ok s -> routing_ok (exec (step rt v ev) s).1.
Proof.
  intros Hs. destruct ev as [|ws frame now db_ok|ws|ws r|r].
  - destruct Hs as [H1 H2 H3]. unfold exec, step. mrun. simpl. split; simpl.
    + intros d Hd. specialize (H1 d Hd). unfold sock_isEsp32 in *. simpl.
      rewrite lookup_insert_ne; [done|].
      intros <-. apply flagged_is_Some, H2 in H1. lia.
    + intros c. rewrite lookup_insert. case_decide; [lia|].
      intros Hc%H2. lia.
    + intros c. rewrite elem_of_app, list_elem_of_singleton, lookup_insert.
      intros [Hc| ->]; [|by rewrite decide_True].
      case_decide; [done|]. by apply H3.
  - rewrite exec_message. unfold is_client. case_bool_decide as Hlive; [|done].
    destruct (message_handler_cases v ws frame now db_ok s) as (m & Heq & Hm).
    unfold exec. rewrite Heq.
    pose proof (handler_of_preserves ws _ s m
                  (routing_ok_handler_invariant ws) Hm (conj Hs Hlive)) as [Hok _].
    by destruct (m s) as [[? ?] ?].
  - rewrite exec_close. unfold is_client. case_bool_decide as Hlive; [|done].
    rewrite exec_on_close.
    assert (routing_ok
      (with_clients (List.filter (fun c => negb (Nat.eqb c ws)) (clients s))
                    (set_readyState ws CLOSED s))) as Hok.
    { destruct Hs as [H1 H2 H3]. split.
      - intros d Hd.
        change (sock_isEsp32 (set_readyState ws CLOSED s) d = true).
        rewrite sock_isEsp32_set_readyState. by apply H1.
      - intros c Hc. apply (is_Some_set_readyState ws CLOSED s c) in Hc.
        by apply H2.
      - intros c Hc. apply (is_Some_set_readyState ws CLOSED s c).
        apply H3. simpl in Hc. apply list_elem_of_In in Hc.
        apply filter_In in Hc as [Hc _]. by apply list_elem_of_In. }
    case_match; [|done]. destruct Hok as [H1 H2 H3]. by split.
  - unfold exec, step. rewrite bind_gets. destruct (is_client s ws); [|done].
    mrun. simpl.
    destruct Hs as [H1 H2 H3]. split.
    + intros d Hd. rewrite sock_isEsp32_set_readyState. by apply H1.
    + intros c Hc. apply is_Some_set_readyState in Hc. by apply H2.
    + intros c Hc. apply is_Some_set_readyState. by apply H3.
  - unfold exec, step. mrun. simpl. by destruct Hs.
Qed.

(** The device flag of a [ws] object is never taken back. *)
Lemma step_flag_kept v ev s c :
  routing_ok s ->
  sock_isEsp32 s c = true ->
  sock_isEsp32 (exec (step rt v ev) s).1 c = true.
Proof.
  intros Hs Hc. destruct ev as [|ws frame now db_ok|ws|ws r|r].
  - unfold exec, step. mrun. simpl. unfold sock_isEsp32. simpl.
    rewrite lookup_insert_ne; [done|].
    intros <-. apply flagged_is_Some, (sockets_fresh _ Hs) in Hc. lia.
  - rewrite exec_message. destruct (is_client s ws); [|done].
    destruct (message_handler_cases v ws frame now db_ok s) as (m & Heq & Hm).
    unfold exec. rewrite Heq.
    pose proof (handler_of_preserves ws _ s m
                  (flag_handler_invariant ws c) Hm Hc) as Hkept.
    by destruct (m s) as [[? ?] ?].
  - rewrite exec_close. destruct (is_client s ws); [|done].
    rewrite exec_on_close. case_match; simpl;
      change (sock_isEsp32 (set_readyState ws CLOSED s) c = true);
      by rewrite sock_isEsp32_set_readyState.
  - unfold exec, step. rewrite bind_gets. destruct (is_client s ws); [|done].
    mrun. simpl. by rewrite sock_isEsp32_set_readyState.
  - unfold exec, step. by mrun.
Qed.

(** A status message of any step went to a recipient of the broadcast. *)
Lemma step_status_sends v ev s c p :
  Send c (msg_statusUpdate p) ∈ (exec (step rt v ev) s).2 ->
  c ∈ status_recipients s.
Proof.
  destruct ev as [|ws frame now db_ok|ws|ws r|r].
  - unfold exec, step. mrun. simpl. by intros [=]%list_elem_of_singleton.
  - rewrite exec_message. destruct (is_client s ws);
      [|by intros ?%elem_of_nil].
    destruct (message_handler_cases v ws frame now db_ok s) as (m & Heq & Hm).
    unfold exec. rewrite Heq. intros Hin.
    apply (handler_of_status_sends ws s m c p Hm).
    by destruct (m s) as [[? ?] ?].
  - rewrite exec_close. destruct (is_client s ws); [|by intros ?%elem_of_nil].
    rewrite exec_on_close. case_match; simpl.
    + by intros [=]%list_elem_of_singleton.
    + by intros ?%elem_of_nil.
  - unfold exec, step. rewrite bind_gets. destruct (is_client s ws);
      [mrun|]; by intros ?%elem_of_nil.
  - unfold exec, step. mrun. by intros ?%elem_of_nil.
Qed.

(** *** Runs *)

Lemma after_nil v s : after rt v [] s = s.
Proof. done. Qed.

Lemma after_cons v ev evs s :
  after rt v (ev :: evs) s = after rt v evs (exec (step rt v ev) s).1.
Proof.
  unfold after. simpl. destruct (exec (step rt v ev) s) as [s1 out1]. simpl.
  by destruct (run rt v evs s1).
Qed.

Lemma trace_cons v ev evs s :
  trace rt v (ev :: evs) s
  = (exec (step rt v ev) s).2 ++ trace rt v evs (exec (step rt v ev) s).1.
Proof.
  unfold trace. simpl. destruct (exec (step rt v ev) s) as [s1 out1]. simpl.
  by destruct (run rt v evs s1).
Qed.

(** What a process does that ends at the first unhandled rejection is a
    run of the events up to there. *)
Lemma run_until_rejection_is_a_run v evs s :
  exists n, run_until_rejection rt v evs s = run rt v (take n evs) s.
Proof.
  revert s. induction evs as [|ev evs IH]; intros s; [by exists 0%nat|].
  simpl. destruct (step rt v ev s) as [[[[]|] s1] out1] eqn:Hstep.
  - destruct (IH s1) as [n Hn]. exists (S n). simpl.
    unfold exec. by rewrite Hstep, Hn.
  - exists 1%nat. simpl. unfold exec. rewrite Hstep. by rewrite app_nil_r.
Qed.

Lemma after_routing_ok v evs s : routing_ok s -> routing_ok (after rt v evs s).
Proof.
  revert s. induction evs as [|ev evs IH]; intros s Hs; [done|].
  rewrite after_cons. by apply IH, step_routing_ok.
Qed.

Lemma after_flag_kept v evs s c :
  routing_ok s ->
  sock_isEsp32 s c = true ->
  sock_isEsp32 (after rt v evs s) c = true.
Proof.
  revert s. induction evs as [|ev evs IH]; intros s Hs Hc; [done|].
  rewrite after_cons. apply IH; [by apply step_routing_ok|by apply step_flag_kept].
Qed.

Lemma reachable_routing_ok v s : reachable rt v s -> routing_ok s.
Proof. intros [evs <-]. apply (after_routing_ok v evs), initial_routing_ok. Qed.

(** What an [esp32-identify] message does. *)
Lemma handle_identify_run ws s :
  handle_identify ws s
  = (Normal (),
     with_sockets (alter flag_isEsp32 ws (sockets s)) (with_esp32Socket (Some ws) s),
     [Console Log [Txt "ESP32 Connected."]]).
Proof. unfold handle_identify. by mrun. Qed.

Lemma message_identify v ws frame data now db_ok s :
  JSON_parse rt frame = Some data ->
  prop data "type" = Some (JStr "esp32-identify") ->
  message_handler rt v ws frame now db_ok s = handle_identify ws s.
Proof.
  intros Hparse Hty.
  destruct v; unfold message_handler, on_message, on_message_backup;
    rewrite Hparse, (member_type _ _ Hty); by mrun.
Qed.

(** What a [statusUpdate] message of a flagged sender does. *)
Lemma message_statusUpdate v ws frame data now db_ok s :
  JSON_parse rt frame = Some data ->
  prop data "type" = Some (JStr "statusUpdate") ->
  sock_isEsp32 s ws = true ->
  message_handler rt v ws frame now db_ok s
  = (Normal (), s,
     map (fun c => Send c (msg_statusUpdate (prop data "payload")))
         (status_recipients s)).
Proof.
  intros Hparse Hty Hflag.
  destruct v; unfold message_handler, on_message, on_message_backup;
    rewrite Hparse, (member_type _ _ Hty); mrun;
    unfold status_or_command; mrun; rewrite Hflag;
    apply handle_statusUpdate_run.
Qed.

Lemma after_app v evs1 evs2 s :
  after rt v (evs1 ++ evs2) s = after rt v evs2 (after rt v evs1 s).
Proof.
  revert s. induction evs1 as [|ev evs1 IH]; intros s; [done|].
  simpl app. by rewrite !after_cons, IH.
Qed.

Lemma sends_app out1 out2 : sends (out1 ++ out2) = sends out1 ++ sends out2.
Proof. unfold sends. apply omap_app. Qed.

(* ===================================================================== *)
(** ** The properties of the relay *)
(* ===================================================================== *)

(** X29. A [command] whose [command] and [value] have a text and that
    arrives while [esp32Socket] is [null] (no device has identified, or the
    slot was cleared) is answered to its sender with the error
    ['Device Offline (No Socket).'] and nothing else is sent: no broadcast,
    nothing forwarded; the state is as before. *)
Theorem command_without_device v s ws frame data command value now db_ok :
  JSON_parse rt frame = Some data ->
  prop data "type" = Some (JStr "command") ->
  to_text (prop data "command") = Normal command ->
  to_text (prop data "value") = Normal value ->
  esp32Socket s = None ->
  message_handler rt v ws frame now db_ok s =
    (Normal (), s,
     [ Console Log [Txt "[CMD] Received: "; Txt command;
                    Txt " Value: "; Txt value];
       Console Warn [Txt "[CMD] Failed: ESP32 Socket is NULL."];
       Send ws (msg_error "Device Offline (No Socket).") ])
  /\ sends (message_handler rt v ws frame now db_ok s).2
     = [(ws, msg_error "Device Offline (No Socket).")].
Proof.
  intros Hparse Hty Hc Hv Hdev.
  assert (message_handler rt v ws frame now db_ok s =
    (Normal (), s,
     [ Console Log [Txt "[CMD] Received: "; Txt command;
                    Txt " Value: "; Txt value];
       Console Warn [Txt "[CMD] Failed: ESP32 Socket is NULL."];
       Send ws (msg_error "Device Offline (No Socket).") ])) as Hrun.
  { destruct v; unfold message_handler, on_message, on_message_backup;
      rewrite Hparse, (member_type _ _ Hty); mrun;
      unfold status_or_command, handle_command; mrun; rewrite Hc, Hv; mrun;
      rewrite Hdev; mrun; done. }
  by rewrite Hrun.
Qed.

(** X30. A [command] whose [command] and [value] have a text and that
    arrives while [esp32Socket] points at a connection whose [readyState] is
    not OPEN is answered to its sender with the error
    ['Device Disconnected (Socket Closed).'], and [esp32Socket] is [null]
    afterwards. *)
Theorem command_with_closed_device v s ws d frame data command value now db_ok :
  JSON_parse rt frame = Some data ->
  prop data "type" = Some (JStr "command") ->
  to_text (prop data "command") = Normal command ->
  to_text (prop data "value") = Normal value ->
  esp32Socket s = Some d ->
  sock_readyState s d <> OPEN ->
  message_handler rt v ws frame now db_ok s =
    (Normal (), with_esp32Socket None s,
     [ Console Log [Txt "[CMD] Received: "; Txt command;
                    Txt " Value: "; Txt value];
       Console Warn [Txt "[CMD] Failed: ESP32 Socket exists but State is ";
                     Num (ready_code (sock_readyState s d))];
       Send ws (msg_error "Device Disconnected (Socket Closed).") ])
  /\ sends (message_handler rt v ws frame now db_ok s).2
     = [(ws, msg_error "Device Disconnected (Socket Closed).")]
  /\ esp32Socket (message_handler rt v ws frame now db_ok s).1.2 = None.
Proof.
  intros Hparse Hty Hc Hv Hdev Hclosed.
  assert (message_handler rt v ws frame now db_ok s =
    (Normal (), with_esp32Socket None s,
     [ Console Log [Txt "[CMD] Received: "; Txt command;
                    Txt " Value: "; Txt value];
       Console Warn [Txt "[CMD] Failed: ESP32 Socket exists but State is ";
                     Num (ready_code (sock_readyState s d))];
       Send ws (msg_error "Device Disconnected (Socket Closed).") ])) as Hrun.
  { destruct v; unfold message_handler, on_message, on_message_backup;
      rewrite Hparse, (member_type _ _ Hty); mrun;
      unfold status_or_command, handle_command; mrun; rewrite Hc, Hv; mrun;
      rewrite Hdev; mrun;
      rewrite bool_decide_eq_false_2 by done; mrun; done. }
  by rewrite Hrun.
Qed.

(** The first log line of [command] comes before every test: a [command]
    or a [value] without a text makes the handler throw, with nothing
    sent, nothing forwarded and [esp32Socket] left as it is, unless the
    [statusUpdate] branch takes the message. *)
Lemma command_without_text_throws v s ws frame data now db_ok :
  JSON_parse rt frame = Some data ->
  prop data "type" = Some (JStr "command") ->
  to_text (prop data "command") = Throw \/ to_text (prop data "value") = Throw ->
  message_handler rt v ws frame now db_ok s = (Throw, s, []).
Proof.
  intros Hparse Hty Hthrow.
  destruct v; unfold message_handler, on_message, on_message_backup;
    rewrite Hparse, (member_type _ _ Hty); mrun;
    unfold status_or_command, handle_command; mrun;
    destruct Hthrow as [-> | Hv]; mrun; try done;
    destruct (to_text (prop data "command")); mrun; try done;
    rewrite Hv; by mrun.
Qed.

(** What the ['close'] listener does to [esp32Socket]: it looks at the flag
    of the closing connection, not at who is in the slot. *)
Lemma close_clears_for_flag v ws s :
  is_client s ws = true ->
  esp32Socket (exec (step rt v (close ws)) s).1
  = if sock_isEsp32 s ws then None else esp32Socket s.
Proof.
  intros Hlive. rewrite exec_close, Hlive, exec_on_close.
  change (sock_isEsp32 (with_clients ?l ?s') ws) with (sock_isEsp32 s' ws).
  rewrite sock_isEsp32_set_readyState. by destruct (sock_isEsp32 s ws).
Qed.

(** C4, as the code has it. A [statusUpdate] of the connection in
    [esp32Socket] goes, with its payload, to every client that is open and
    does not carry the device flag, in the order of [wss.clients], and to
    nobody else: not to the sender and not to another flagged connection.
    The state is as before. *)
Theorem statusUpdate_goes_to_unflagged_open_clients
    v evs ws frame data now db_ok :
  esp32Socket (after rt v evs initial) = Some ws ->
  JSON_parse rt frame = Some data ->
  prop data "type" = Some (JStr "statusUpdate") ->
  message_handler rt v ws frame now db_ok (after rt v evs initial)
  = (Normal (), after rt v evs initial,
     map (fun c => Send c (msg_statusUpdate (prop data "payload")))
         (status_recipients (after rt v evs initial)))
  /\ (forall c, c ∈ status_recipients (after rt v evs initial) <->
        c ∈ clients (after rt v evs initial) /\
        sock_isEsp32 (after rt v evs initial) c = false /\
        sock_readyState (after rt v evs initial) c = OPEN)
  /\ ws ∉ status_recipients (after rt v evs initial).
Proof.
  intros Hdev Hparse Hty.
  pose proof (after_routing_ok v evs initial initial_routing_ok) as Hok.
  pose proof (device_flagged _ Hok ws Hdev) as Hflag.
  split; [by apply message_statusUpdate|].
  split; [apply handle_statusUpdate_recipient|].
  rewrite handle_statusUpdate_recipient. intros (_ & Hno & _). congruence.
Qed.

(** The deployed relay only logs a failure of the store. *)
Lemma deployed_swallows_store_failure ws frame data now s :
  JSON_parse rt frame = Some data ->
  mongo_readyState s = 1 ->
  (prop data "type" = Some (JStr "getLogs") /\
   exists q, getLogs_query rt (prop (payload_or_empty data) "startDate")
                              (prop (payload_or_empty data) "endDate")
             = Normal q) \/
  prop data "type" = Some (JStr "clearLogs") ->
  exists label,
    on_message rt ws frame now false s
    = (Normal (), s, [Console Error [Txt label; Err]]).
Proof.
  intros Hparse Hmongo [(Hty & q & Hq)|Hty]; unfold on_message;
    rewrite Hparse, (member_type _ _ Hty); mrun;
    unfold handle_getLogs, query_logs, handle_clearLogs; rewrite ?Hq; mrun;
    rewrite Hmongo; mrun; eauto.
Qed.

(** C5, as the code has it. In the backup relay, with the store connected,
    a [getLogs] query (both bounds given) or a [deleteLogs]/[clearLogs]
    delete that fails at the store is logged and answered to the requester
    with a typed error. The store is asked whenever the filter gets built;
    it does not get built when a [new Date] of the message throws, and then
    the handler throws with nothing logged or sent. *)
Theorem backup_reports_store_failure ws frame data now s :
  JSON_parse rt frame = Some data ->
  mongo_readyState s = 1 ->
  (prop data "type" = Some (JStr "getLogs") /\
   truthy (prop (payload_or_empty data) "startDate") = true /\
   truthy (prop (payload_or_empty data) "endDate") = true) \/
  prop data "type" = Some (JStr "deleteLogs") \/
  prop data "type" = Some (JStr "clearLogs") ->
  on_message_backup rt ws frame now false s
  = match
      (if is_str (prop data "type") "getLogs"
       then getLogs_query rt (prop (payload_or_empty data) "startDate")
                             (prop (payload_or_empty data) "endDate")
       else deleteLogs_match rt (prop (payload_or_empty data) "startDate")
                                (prop (payload_or_empty data) "endDate"))
    with
    | Normal _ =>
        (Normal (), s,
         [ Console Error
             [Txt (if is_str (prop data "type") "getLogs"
                   then "DB Query Fail:" else "DB Clear Fail:"); Err];
           Send ws (msg_error
             (if is_str (prop data "type") "getLogs"
              then "Database Error. Check Server Logs." else "Delete Failed.")) ])
    | Throw => (Throw, s, [])
    end.
Proof.
  intros Hparse Hmongo [(Hty & Hstart & Hend)|[Hty|Hty]]; unfold on_message_backup;
    rewrite Hparse, (member_type _ _ Hty), Hty; mrun;
    unfold handle_getLogs_backup, query_logs, handle_deleteLogs_backup;
    rewrite ?Hstart, ?Hend; mrun.
  - destruct (getLogs_query rt _ _); mrun; [|done]. rewrite Hmongo. by mrun.
  - destruct (deleteLogs_match rt _ _); mrun; [|done]. rewrite Hmongo. by mrun.
  - destruct (deleteLogs_match rt _ _); mrun; [|done]. rewrite Hmongo. by mrun.
Qed.

(** C7. The [logHistory] reply to a [getLogs] request goes to the
    requester, holds at most 100 entries and is sorted by [serverTime],
    newest first. *)
Theorem logHistory_capped_and_sorted v ws frame data now db_ok s c payload :
  JSON_parse rt frame = Some data ->
  prop data "type" = Some (JStr "getLogs") ->
  Send c (msg_logHistory payload) ∈ (message_handler rt v ws frame now db_ok s).2 ->
  c = ws /\ (List.length payload <= 100)%nat /\ Sorted newer_first payload.
Proof.
  intros Hparse Hty. rewrite list_elem_of_In.
  destruct v; unfold message_handler, on_message, on_message_backup;
    rewrite Hparse, (member_type _ _ Hty); mrun;
    unfold handle_getLogs, handle_getLogs_backup, query_logs.
  all: mcase.
  all: simpl; intros Hin;
    repeat match goal with
      | H : _ \/ _ |- _ => destruct H as [H|H]
      | H : False |- _ => destruct H
      end;
    try discriminate; simplify_eq.
  all: first
    [ by auto using find_sort_limit_length, find_sort_limit_sorted
    | split; [done|]; split; [simpl; lia|constructor] ].
Qed.

(** C8. A frame that [JSON.parse] rejects is logged and dropped: the
    handler returns without a throw, sends nothing and leaves the state
    (the [ws] objects, [wss.clients], [esp32Socket], the collection) as it
    was, and what follows runs as if the frame had not come. *)
Theorem malformed_frame_is_dropped v ws frame now db_ok s evs :
  JSON_parse rt frame = None ->
  message_handler rt v ws frame now db_ok s
  = (Normal (), s, [Console Error [Txt "JSON Error:"; Err]])
  /\ (exec (step rt v (message ws frame now db_ok)) s).1 = s
  /\ sends (exec (step rt v (message ws frame now db_ok)) s).2 = []
  /\ after rt v (message ws frame now db_ok :: evs) s = after rt v evs s
  /\ sends (trace rt v (message ws frame now db_ok :: evs) s)
     = sends (trace rt v evs s).
Proof.
  intros Hparse.
  assert (message_handler rt v ws frame now db_ok s
          = (Normal (), s, [Console Error [Txt "JSON Error:"; Err]])) as Hrun.
  { destruct v; unfold message_handler, on_message, on_message_backup;
      by rewrite Hparse. }
  assert ((exec (step rt v (message ws frame now db_ok)) s).1 = s /\
          sends (exec (step rt v (message ws frame now db_ok)) s).2 = [])
    as [Hst Hout].
  { rewrite exec_message. destruct (is_client s ws); [|done].
    unfold exec. by rewrite Hrun. }
  repeat split; try done.
  - by rewrite after_cons, Hst.
  - by rewrite trace_cons, sends_app, Hout, Hst.
Qed.

(** C9. Once a connection has sent [esp32-identify], its [isEsp32] flag
    stays set whatever happens later, also when another connection
    identifies and takes [esp32Socket]: no step of the relay sends it a
    status broadcast, and a [statusUpdate] it sends is still broadcast to
    the open unflagged clients. *)
Theorem device_flag_is_permanent
    v evs1 c frame data now db_ok evs2 frame' data' now' db_ok' :
  is_client (after rt v evs1 initial) c = true ->
  JSON_parse rt frame = Some data ->
  prop data "type" = Some (JStr "esp32-identify") ->
  JSON_parse rt frame' = Some data' ->
  prop data' "type" = Some (JStr "statusUpdate") ->
  let s := after rt v (evs1 ++ message c frame now db_ok :: evs2) initial in
  sock_isEsp32 s c = true
  /\ (c ∉ status_recipients s)
  /\ (forall ev p, (c, msg_statusUpdate p) ∉ sends (exec (step rt v ev) s).2)
  /\ message_handler rt v c frame' now' db_ok' s
     = (Normal (), s,
        map (fun d => Send d (msg_statusUpdate (prop data' "payload")))
            (status_recipients s)).
Proof.
  intros Hlive Hparse Hty Hparse' Hty' s.
  pose proof (after_routing_ok v evs1 initial initial_routing_ok) as Hok1.
  assert (sock_isEsp32 s c = true) as Hflag.
  { unfold s. rewrite after_app, after_cons.
    assert (routing_ok (exec (step rt v (message c frame now db_ok))
                          (after rt v evs1 initial)).1) as Hok2
      by (apply step_routing_ok; done).
    apply after_flag_kept; [done|].
    rewrite exec_message, Hlive. unfold exec.
    rewrite (message_identify v c frame data now db_ok _ Hparse Hty),
      handle_identify_run. simpl.
    erewrite sock_isEsp32_flag by done. simpl.
    unfold is_client in Hlive. apply bool_decide_eq_true in Hlive.
    destruct (clients_alive _ Hok1 c Hlive) as [o ->]. by rewrite decide_True. }
  assert (c ∉ status_recipients s) as Hnot.
  { rewrite handle_statusUpdate_recipient. intros (_ & Hno & _). congruence. }
  repeat split; try done.
  - intros ev p Hin%elem_of_sends. by apply step_status_sends in Hin.
  - by apply message_statusUpdate.
Qed.

(** The delete of the backup relay when no filter was built. *)
Lemma delete_without_filter ws data db_ok s :
  deleteLogs_match rt (prop (payload_or_empty data) "startDate")
                      (prop (payload_or_empty data) "endDate") = Normal None ->
  handle_deleteLogs_backup rt ws data db_ok s
  = if mongo_readyState s =? 1 then
      if db_ok then
        (Normal (), with_MotorLogs [] s,
         [ Console Log [Txt "Deleted ";
                        Num (Z.of_nat (List.length (MotorLogs s)));
                        Txt " logs."];
           Send ws (msg_error
             ("Deleted " +:+ pretty (Z.of_nat (List.length (MotorLogs s)))
              +:+ " logs."));
           Send ws (msg_logHistory []) ])
      else
        (Normal (), s,
         [ Console Error [Txt "DB Clear Fail:"; Err];
           Send ws (msg_error "Delete Failed.") ])
    else (Normal (), s, []).
Proof.
  intros Hmatch. unfold handle_deleteLogs_backup. rewrite Hmatch. mrun.
  destruct (mongo_readyState s =? 1); [|done].
  destruct db_ok; mrun; [|done].
  change (cast_ok None) with true. mrun. by rewrite deleteMany_all.
Qed.

(** C10. In the backup relay a [deleteLogs]/[clearLogs] request with only
    one of [startDate] and [endDate] builds no filter: it runs as a request
    without a payload does, and where the store is connected and the delete
    goes through, the whole collection is gone. *)
Theorem deleteLogs_one_bound_deletes_all ws frame data now db_ok s :
  JSON_parse rt frame = Some data ->
  prop data "type" = Some (JStr "deleteLogs") \/
  prop data "type" = Some (JStr "clearLogs") ->
  xorb (truthy (prop (payload_or_empty data) "startDate"))
       (truthy (prop (payload_or_empty data) "endDate")) = true ->
  deleteLogs_match rt (prop (payload_or_empty data) "startDate")
                      (prop (payload_or_empty data) "endDate") = Normal None
  /\ on_message_backup rt ws frame now db_ok s
     = handle_deleteLogs_backup rt ws (JObj []) db_ok s
  /\ on_message_backup rt ws frame now db_ok s
     = (if mongo_readyState s =? 1 then
         if db_ok then
           (Normal (), with_MotorLogs [] s,
            [ Console Log [Txt "Deleted ";
                           Num (Z.of_nat (List.length (MotorLogs s)));
                           Txt " logs."];
              Send ws (msg_error
                ("Deleted " +:+ pretty (Z.of_nat (List.length (MotorLogs s)))
                 +:+ " logs."));
              Send ws (msg_logHistory []) ])
         else
           (Normal (), s,
            [ Console Error [Txt "DB Clear Fail:"; Err];
              Send ws (msg_error "Delete Failed.") ])
       else (Normal (), s, []))
  /\ (mongo_readyState s = 1 -> db_ok = true ->
      MotorLogs (on_message_backup rt ws frame now db_ok s).1.2 = []).
Proof.
  intros Hparse Hty Hone.
  assert (deleteLogs_match rt (prop (payload_or_empty data) "startDate")
            (prop (payload_or_empty data) "endDate") = Normal None) as Hmatch.
  { unfold deleteLogs_match.
    by destruct (truthy (prop (payload_or_empty data) "startDate")),
                (truthy (prop (payload_or_empty data) "endDate")). }
  assert (on_message_backup rt ws frame now db_ok s
          = handle_deleteLogs_backup rt ws data db_ok s) as Hrun.
  { destruct Hty as [Hty|Hty]; unfold on_message_backup;
      rewrite Hparse, (member_type _ _ Hty); by mrun. }
  split; [done|]. rewrite Hrun.
  rewrite (delete_without_filter ws data db_ok s Hmatch).
  rewrite (delete_without_filter ws (JObj []) db_ok s) by done.
  repeat split. by intros -> ->.
Qed.

End RelayFacts.

(* ===================================================================== *)
(** ** The relay on concrete runs *)
(* ===================================================================== *)

Section Examples.

Import Sample.

(** C1. The log line of [command] is written before [esp32Socket] is
    tested. With no device identified, a [command] message whose [command]
    is an object with a member [toString] makes the template literal of
    that line throw a TypeError: in both relays the handler ends there,
    and the sender gets no ['Device Offline (No Socket).'] and nothing
    else. A command with a text in that place gets the error. *)
Theorem command_without_text_gets_no_reply :
  esp32Socket two_dashboards = None
  /\ JSON_parse utc command_own_toString
     = Some (JObj [("command", JObj [("toString", JNum 1)]);
                   ("type", JStr "command")])
  /\ message_handler utc Deployed 1 command_own_toString 0 true two_dashboards
     = (Throw, two_dashboards, [])
  /\ message_handler utc Backup 1 command_own_toString 0 true two_dashboards
     = (Throw, two_dashboards, [])
  /\ sends (message_handler utc Deployed 1 command_on 0 true two_dashboards).2
     = [(1%nat, msg_error "Device Offline (No Socket).")].
Proof. vm_compute. repeat split; reflexivity. Qed.

(** C2. The same log line comes before the test of [readyState]. With
    [esp32Socket] pointing at connection 0, whose transport is closing, a
    [command] message whose [command] is an object with a member
    [toString] makes the handler throw: in both relays the sender gets no
    ['Device Disconnected (Socket Closed).'], and [esp32Socket] is not
    cleared. A command with a text in that place gets the error and
    clears the slot. *)
Theorem command_without_text_leaves_closed_device :
  esp32Socket device_closing = Some 0%nat
  /\ sock_readyState device_closing 0 = CLOSING
  /\ message_handler utc Deployed 1 command_own_toString 0 true device_closing
     = (Throw, device_closing, [])
  /\ message_handler utc Backup 1 command_own_toString 0 true device_closing
     = (Throw, device_closing, [])
  /\ esp32Socket
       (after utc Deployed [message 1 command_own_toString 0 true] device_closing)
     = Some 0%nat
  /\ sends (message_handler utc Deployed 1 command_on 0 true device_closing).2
     = [(1%nat, msg_error "Device Disconnected (Socket Closed).")]
  /\ esp32Socket
       (after utc Deployed [message 1 command_on 0 true] device_closing)
     = None.
Proof. vm_compute. repeat split; reflexivity. Qed.

Lemma command_without_device_witness :
  sends (message_handler utc Deployed 1 command_on 0 true two_dashboards).2
  = [(1%nat, msg_error "Device Offline (No Socket).")].
Proof.
  eapply (command_without_device utc Deployed two_dashboards 1%nat command_on
            (JObj [("value", JNum 1); ("command", JStr "MOTOR_ON");
                   ("type", JStr "command")]) "MOTOR_ON" "1");
    vm_compute; reflexivity.
Defined.

Lemma command_with_closed_device_witness :
  esp32Socket
    (message_handler utc Backup 1 command_on 0 true device_closing).1.2 = None.
Proof.
  eapply (command_with_closed_device utc Backup device_closing 1%nat 0%nat
            command_on
            (JObj [("value", JNum 1); ("command", JStr "MOTOR_ON");
                   ("type", JStr "command")]) "MOTOR_ON" "1");
    vm_compute; first [reflexivity | discriminate].
Defined.

(** C3. The ['close'] listener clears [esp32Socket] for every closing
    connection that carries the device flag. Here connection 0 identified
    first and connection 1 after it: 1 holds the slot and is open, and the
    close of 0 empties the slot all the same. The firmware identifies once
    per connection, so the device stays unreachable until it reconnects. *)
Theorem close_of_replaced_device_clears_slot :
  esp32Socket two_devices = Some 1%nat
  /\ is_client two_devices 1 = true
  /\ is_open two_devices 1 = true
  /\ esp32Socket (after utc Deployed [close 0] two_devices) = None
  /\ esp32Socket (after utc Backup [close 0] two_devices) = None
  /\ sends (trace utc Deployed [close 0; message 2 command_on 0 true] two_devices)
     = [(2%nat, msg_error "Device Offline (No Socket).")].
Proof. vm_compute. repeat split; reflexivity. Qed.

(** Connection 0 is open and is not the device, and the status of the
    device, connection 1, does not reach it. *)
Lemma statusUpdate_skips_replaced_device :
  esp32Socket two_devices = Some 1%nat
  /\ ~ (forall c,
        is_client two_devices c = true -> c <> 1%nat ->
        is_open two_devices c = true ->
        (c, msg_statusUpdate (Some (JObj [("motorStatus", JStr "ON")])))
        ∈ sends (message_handler utc Deployed 1 status_on 0 true two_devices).2).
Proof.
  split; [reflexivity|]. intros H.
  specialize (H 0%nat eq_refl ltac:(discriminate) eq_refl).
  vm_compute in H. apply list_elem_of_singleton in H. discriminate.
Qed.

Lemma statusUpdate_goes_to_unflagged_open_clients_witness :
  message_handler utc Deployed 1 status_on 0 true two_devices
  = (Normal (), two_devices,
     [Send 2%nat (msg_statusUpdate (Some (JObj [("motorStatus", JStr "ON")])))]).
Proof.
  refine (eq_trans
    (proj1 (statusUpdate_goes_to_unflagged_open_clients utc Deployed
       [connection; connection; connection;
        message 0 identify 0 true; message 1 identify 0 true]
       1%nat status_on (JObj [("payload", JObj [("motorStatus", JStr "ON")]);
                              ("type", JStr "statusUpdate")]) 0 true _ _ _)) _);
    vm_compute; reflexivity.
Defined.

(** The store is connected, the query fails, and the deployed relay sends
    the requester nothing. *)
Lemma deployed_getLogs_failure_is_silent :
  mongo_readyState (with_two_logs Deployed) = 1
  /\ sends (message_handler utc Deployed 0 getLogs_all 0 false
             (with_two_logs Deployed)).2 = []
  /\ ~ (exists text,
         (0%nat, msg_error text)
         ∈ sends (message_handler utc Deployed 0 getLogs_all 0 false
                    (with_two_logs Deployed)).2).
Proof.
  split; [reflexivity|]. split; [reflexivity|].
  intros [text H]. vm_compute in H. by apply elem_of_nil in H.
Qed.

Lemma backup_reports_store_failure_witness :
  sends (on_message_backup utc 0 getLogs_march_10 0 false (with_two_logs Backup)).2
  = [(0%nat, msg_error "Database Error. Check Server Logs.")].
Proof.
  rewrite (backup_reports_store_failure utc 0%nat getLogs_march_10
             (JObj [("payload", JObj [("endDate", JStr "2024-03-10");
                                      ("startDate", JStr "2024-03-10")]);
                    ("type", JStr "getLogs")])
             0 (with_two_logs Backup));
    [reflexivity | vm_compute; reflexivity | reflexivity
    | left; vm_compute; repeat split; reflexivity ].
Defined.

(** C6. On a host on New York time, [setDate(getDate() + 1)] moves the end
    of a range that ends on 2024-03-10, the day the clocks go forward, by
    23 hours: the bound is 2024-03-10T23:00:00Z, not 2024-03-11T00:00:00Z,
    and an entry stored at 23:30:00Z of that day is not returned. On a UTC
    host the same request returns it. *)
Theorem getLogs_end_bound_on_dst_host :
  getLogs_query new_york (Some (JStr "2024-03-10")) (Some (JStr "2024-03-10"))
  = Normal (Some {| gte := Some (Some 1710028800000);
                    lt := Some (Some 1710111600000) |})
  /\ JsDate.utc_midnight (2024, 3, 10) = 1710028800000
  /\ JsDate.utc_midnight (2024, 3, 11) = 1710115200000
  /\ sends (trace new_york Deployed
             [connection; mongoose_state 1;
              message 0 upload 1710113400000 true;
              message 0 getLogs_march_10 1710113500000 true] initial)
     = [(0%nat, msg_logHistory [])]
  /\ sends (trace new_york Backup
             [connection; mongoose_state 1;
              message 0 upload 1710113400000 true;
              message 0 getLogs_march_10 1710113500000 true] initial)
     = [(0%nat, msg_logHistory [])]
  /\ sends (trace utc Deployed
             [connection; mongoose_state 1;
              message 0 upload 1710113400000 true;
              message 0 getLogs_march_10 1710113500000 true] initial)
     = [(0%nat, msg_logHistory
           [ {| macAddress := Some (JStr "AA:BB"); onTime := Some (JStr "10:00");
                offTime := Some (JStr "10:05"); duration := Some (JStr "5m");
                serverTime := 1710113400000 |} ])].
Proof. vm_compute. repeat split; reflexivity. Qed.

Lemma logHistory_capped_and_sorted_witness :
  (List.length (find_sort_limit None (MotorLogs (with_two_logs Deployed))) <= 100)%nat
  /\ Sorted newer_first (find_sort_limit None (MotorLogs (with_two_logs Deployed))).
Proof.
  eapply (logHistory_capped_and_sorted utc Deployed 0%nat getLogs_all _ 0 true
            (with_two_logs Deployed) 0%nat);
    [vm_compute; reflexivity | reflexivity | vm_compute; left].
Defined.

Lemma malformed_frame_is_dropped_witness :
  after utc Deployed [message 1 truncated 0 true; message 1 command_on 0 true]
        two_dashboards
  = after utc Deployed [message 1 command_on 0 true] two_dashboards.
Proof.
  apply (malformed_frame_is_dropped utc Deployed 1%nat truncated 0 true
           two_dashboards [message 1 command_on 0 true]).
  vm_compute. reflexivity.
Defined.

Lemma device_flag_is_permanent_witness :
  sock_isEsp32
    (after utc Deployed
       ([connection; connection; connection]
        ++ message 0 identify 0 true
        :: [message 1 identify 0 true; transport 0 CLOSING; transport 0 OPEN])
       initial) 0 = true.
Proof.
  eapply (device_flag_is_permanent utc Deployed
            [connection; connection; connection] 0%nat identify _ 0 true
            [message 1 identify 0 true; transport 0 CLOSING; transport 0 OPEN]
            status_on _ 0 true);
    vm_compute; reflexivity.
Defined.

Lemma deleteLogs_one_bound_deletes_all_witness :
  on_message_backup utc 0 deleteLogs_from_january 0 true (with_two_logs Backup)
  = handle_deleteLogs_backup utc 0 (JObj []) true (with_two_logs Backup).
Proof.
  eapply (deleteLogs_one_bound_deletes_all utc 0%nat deleteLogs_from_january _ 0
            true (with_two_logs Backup));
    [vm_compute; reflexivity | left; reflexivity | reflexivity].
Defined.

End Examples.

(* ===================================================================== *)
(** ** More about the handlers *)
(* ===================================================================== *)

Section MoreRelayFacts.

Context (rt : runtime).

Lemma member_not_null data k : data <> JNull -> member data k = mret (prop data k).
Proof. by destruct data. Qed.

(** The dispatch on a message whose [type] is the string [lit]. *)
Ltac dispatch v Hparse Hty :=
  destruct v; unfold message_handler, on_message, on_message_backup;
  rewrite Hparse, (member_type _ _ Hty); mrun.

Lemma query_logs_run ws q db_ok reply s :
  query_logs ws q db_ok reply s
  = if mongo_readyState s =? 1 then
      if db_ok && cast_ok q then
        (Normal (), s, [Send ws (msg_logHistory (find_sort_limit q (MotorLogs s)))])
      else
        (Normal (), s,
         Console Error [Txt "DB Query Fail:"; Err]
         :: match reply with Some m => [Send ws m] | None => [] end)
    else (Normal (), s, [Send ws (msg_logHistory [])]).
Proof.
  unfold query_logs. mrun. destruct (mongo_readyState s =? 1); [|by mrun].
  destruct (db_ok && cast_ok q); mrun; [done|]. by destruct reply.
Qed.

Lemma handle_command_run ws data s :
  handle_command ws data s
  = match to_text (prop data "command"), to_text (prop data "value") with
    | Normal command, Normal value =>
        prepend
          [Console Log [Txt "[CMD] Received: "; Txt command;
                        Txt " Value: "; Txt value]]
          match esp32Socket s with
          | Some d =>
              if bool_decide (sock_readyState s d = OPEN) then
                (Normal (), s,
                 [Send d (msg_envelope data);
                  Console Log [Txt "[CMD] Forwarded to ESP32 (State: OPEN)"]])
              else
                (Normal (), with_esp32Socket None s,
                 [Console Warn
                    [Txt "[CMD] Failed: ESP32 Socket exists but State is ";
                     Num (ready_code (sock_readyState s d))];
                  Send ws (msg_error "Device Disconnected (Socket Closed).")])
          | None =>
              (Normal (), s,
               [Console Warn [Txt "[CMD] Failed: ESP32 Socket is NULL."];
                Send ws (msg_error "Device Offline (No Socket).")])
          end
    | _, _ => (Throw, s, [])
    end.
Proof.
  unfold handle_command.
  destruct (to_text (prop data "command")); mrun; [|done].
  destruct (to_text (prop data "value")); mrun; [|done].
  destruct (esp32Socket s) as [d|]; mrun; [|done].
  destruct (bool_decide (sock_readyState s d = OPEN)); by mrun.
Qed.

Lemma handle_requestStatus_run ws s :
  handle_requestStatus ws s
  = match esp32Socket s with
    | Some d =>
        if is_open s d then
          (Normal (), s, [Send ws (msg_serverStatus true);
                          Send d msg_force_status_update])
        else (Normal (), s, [Send ws (msg_serverStatus false)])
    | None => (Normal (), s, [Send ws (msg_serverStatus false)])
    end.
Proof.
  unfold handle_requestStatus. mrun. destruct (esp32Socket s) as [d|]; mrun; [|done].
  destruct (is_open s d); by mrun.
Qed.

Lemma handle_uploadLog_run data payload now db_ok s :
  prop data "payload" = Some payload ->
  payload <> JNull ->
  handle_uploadLog data now db_ok s
  = match to_text (prop payload "mac"), to_text (prop payload "duration") with
    | Normal mac, Normal duration =>
        prepend
          [Console Log [Txt "Log received from "; Txt mac;
                        Txt ": "; Txt duration]]
          (if mongo_readyState s =? 1 then
             match new_MotorLog payload now with
             | Normal doc =>
                 if db_ok then
                   (Normal (), with_MotorLogs (MotorLogs s ++ [doc]) s,
                    [Console Log [Txt "Log saved to DB."]])
                 else (Normal (), s, [Console Error [Txt "DB Save Fail:"; Err]])
             | Throw => (Normal (), s, [Console Error [Txt "DB Save Fail:"; Err]])
             end
           else
             (Normal (), s,
              [Console Error [Txt "Log Dropped: MongoDB NOT Connected (State: ";
                              Num (mongo_readyState s); Txt ")"]]))
    | _, _ => (Throw, s, [])
    end.
Proof.
  intros Hp Hnn. unfold handle_uploadLog. rewrite Hp.
  destruct payload; try done;
    repeat (match goal with |- context [lift ?c] => destruct c end;
            mrun; try done);
    (destruct (mongo_readyState s =? 1); [|by mrun]);
    (destruct (new_MotorLog _ now); [destruct db_ok|]; by mrun).
Qed.


Lemma handle_clearLogs_run ws db_ok s :
  handle_clearLogs ws db_ok s
  = if mongo_readyState s =? 1 then
      if db_ok then
        (Normal (), with_MotorLogs [] s,
         [Console Log [Txt "All logs cleared from DB."];
          Send ws (msg_logHistory [])])
      else (Normal (), s, [Console Error [Txt "DB Clear Fail:"; Err]])
    else (Normal (), s, []).
Proof.
  unfold handle_clearLogs. mrun. destruct (mongo_readyState s =? 1); [|done].
  destruct db_ok; mrun; [|done]. by rewrite deleteMany_all.
Qed.

End MoreRelayFacts.

Section RelayExtras.

Context (rt : runtime).

Ltac dispatch v Hparse Hty :=
  destruct v; unfold message_handler, on_message, on_message_backup;
  rewrite Hparse, (member_type _ _ Hty); mrun.


(** X2. An [uploadLog] whose [mac] and [duration] have a text, and that
    arrives while the store is not connected, or whose write the store
    refuses, or with a field the schema refuses (an array, an object
    without a string [_id]), is lost: the collection and the rest of the state stay as they are and
    nothing is sent to anybody. *)
Theorem uploadLog_lost_without_store v ws frame data payload now db_ok s :
  JSON_parse rt frame = Some data ->
  prop data "type" = Some (JStr "uploadLog") ->
  prop data "payload" = Some payload ->
  payload <> JNull ->
  to_text (prop payload "mac") <> Throw ->
  to_text (prop payload "duration") <> Throw ->
  mongo_readyState s <> 1 \/ db_ok = false \/ new_MotorLog payload now = Throw ->
  (message_handler rt v ws frame now db_ok s).1 = (Normal (), s)
  /\ sends (message_handler rt v ws frame now db_ok s).2 = [].
Proof.
  intros Hparse Hty Hp Hnn Hmac Hdur Hlost.
  assert (message_handler rt v ws frame now db_ok s
          = handle_uploadLog data now db_ok s) as ->.
  { by dispatch v Hparse Hty. }
  rewrite (handle_uploadLog_run data payload now db_ok s Hp Hnn).
  destruct (to_text (prop payload "mac")); [|done].
  destruct (to_text (prop payload "duration")); [|done].
  destruct (mongo_readyState s =? 1) eqn:Hm; [|done].
  apply Z.eqb_eq in Hm.
  destruct Hlost as [?|[-> | ->]]; [done| |done].
  by destruct (new_MotorLog payload now).
Qed.

(** X3. A frame that parses to [null], and an [uploadLog] whose [payload]
    is missing or [null], make the handler throw before it has done
    anything: the state is untouched, nothing is logged or sent, and the
    promise of the [async] listener is rejected. *)
Theorem null_message_or_payload_throws v ws frame data now db_ok s :
  JSON_parse rt frame = Some data ->
  data = JNull \/
  (prop data "type" = Some (JStr "uploadLog") /\
   (prop data "payload" = None \/ prop data "payload" = Some JNull)) ->
  message_handler rt v ws frame now db_ok s = (Throw, s, []).
Proof.
  intros Hparse [-> | [Hty Hp]].
  - destruct v; unfold message_handler, on_message, on_message_backup;
      by rewrite Hparse.
  - dispatch v Hparse Hty; unfold handle_uploadLog;
      destruct Hp as [-> | ->]; done.
Qed.

Lemma exec_message_live v ws frame now db_ok s r s' out :
  is_client s ws = true ->
  message_handler rt v ws frame now db_ok s = (r, s', out) ->
  exec (step rt v (message ws frame now db_ok)) s = (s', out).
Proof. intros Hlive Hrun. rewrite exec_message, Hlive. unfold exec. by rewrite Hrun. Qed.



(** X5. In the deployed relay, with the store connected and the delete
    going through, [clearLogs] clears the whole collection, whatever the
    payload says, and every [logHistory] that this and a [getLogs] right
    after it send is empty. *)
Theorem clearLogs_then_getLogs_is_empty
    ws ws' clear cdata get gdata now now' db_ok' s c payload :
  is_client s ws = true ->
  is_client s ws' = true ->
  JSON_parse rt clear = Some cdata ->
  prop cdata "type" = Some (JStr "clearLogs") ->
  JSON_parse rt get = Some gdata ->
  prop gdata "type" = Some (JStr "getLogs") ->
  mongo_readyState s = 1 ->
  MotorLogs (after rt Deployed [message ws clear now true] s) = []
  /\ (Send c (msg_logHistory payload)
      ∈ trace rt Deployed
          [message ws clear now true; message ws' get now' db_ok'] s ->
      payload = []).
Proof.
  intros Hws Hws' Hclear Hcty Hget Hgty Hmongo.
  assert (message_handler rt Deployed ws clear now true s
          = (Normal (), with_MotorLogs [] s,
             [Console Log [Txt "All logs cleared from DB."];
              Send ws (msg_logHistory [])])) as Hstep1.
  { unfold message_handler, on_message. rewrite Hclear, (member_type _ _ Hcty).
    mrun. by rewrite handle_clearLogs_run, Hmongo. }
  assert (exists r out,
            message_handler rt Deployed ws' get now' db_ok' (with_MotorLogs [] s)
            = (r, with_MotorLogs [] s, out) /\
            (out = [Send ws' (msg_logHistory [])] \/
             out = [Console Error [Txt "DB Query Fail:"; Err]] \/
             out = []))
    as (r & out & Hstep2 & Hout).
  { unfold message_handler, on_message. rewrite Hget, (member_type _ _ Hgty).
    mrun. unfold handle_getLogs.
    destruct (getLogs_query rt _ _) as [q|]; mrun; [|eauto 6].
    rewrite query_logs_run.
    cbn [mongo_readyState with_MotorLogs MotorLogs]. rewrite Hmongo.
    cbn [Z.eqb Pos.eqb]. destruct (db_ok' && cast_ok _); eauto 6. }
  split.
  - by rewrite after_cons, after_nil,
      (exec_message_live _ _ _ _ _ _ _ _ _ Hws Hstep1).
  - rewrite trace_cons, (exec_message_live _ _ _ _ _ _ _ _ _ Hws Hstep1).
    cbn [fst snd]. rewrite trace_cons.
    rewrite (exec_message_live Deployed ws' get now' db_ok'
               (with_MotorLogs [] s) _ _ _ Hws' Hstep2).
    cbn [fst snd trace run app]. rewrite !list_elem_of_In.
    destruct Hout as [-> | [-> | ->]]; simpl; intros Hin;
      repeat match goal with
        | H : _ \/ _ |- _ => destruct H as [H|H]
        | H : False |- _ => destruct H
        end; try discriminate; by simplify_eq.
Qed.

(** X6. The backup relay refuses a [getLogs] that lacks a start or an end
    date: the requester gets the error ['Date Range Required'], the store
    is not asked and the state stays as it is. *)
Theorem backup_getLogs_requires_range ws frame data now db_ok s :
  JSON_parse rt frame = Some data ->
  prop data "type" = Some (JStr "getLogs") ->
  truthy (prop (payload_or_empty data) "startDate") = false \/
  truthy (prop (payload_or_empty data) "endDate") = false ->
  on_message_backup rt ws frame now db_ok s
  = (Normal (), s,
     [ Console Warn [Txt "Log Fetch Denied: Missing Date Range"];
       Send ws (msg_error "Date Range Required") ]).
Proof.
  intros Hparse Hty Hmiss. unfold on_message_backup.
  rewrite Hparse, (member_type _ _ Hty). mrun. unfold handle_getLogs_backup.
  assert (negb (truthy (prop (payload_or_empty data) "startDate"))
          || negb (truthy (prop (payload_or_empty data) "endDate")) = true) as ->.
  { destruct Hmiss as [-> | ->]; [done|]. apply orb_true_r. }
  by mrun.
Qed.

(** X7. A [getLogs] that comes while the store is not connected is
    answered with an empty [logHistory], and the state stays as it is,
    provided its filter gets built: where a [new Date] of the message
    throws, the handler throws before it looks at the store and nothing is
    sent. In the backup relay that takes both dates. *)
Theorem getLogs_without_store_is_empty v ws frame data now db_ok s :
  JSON_parse rt frame = Some data ->
  prop data "type" = Some (JStr "getLogs") ->
  v = Deployed \/
  (truthy (prop (payload_or_empty data) "startDate") = true /\
   truthy (prop (payload_or_empty data) "endDate") = true) ->
  mongo_readyState s <> 1 ->
  message_handler rt v ws frame now db_ok s
  = match getLogs_query rt (prop (payload_or_empty data) "startDate")
                           (prop (payload_or_empty data) "endDate") with
    | Normal _ => (Normal (), s, [Send ws (msg_logHistory [])])
    | Throw => (Throw, s, [])
    end.
Proof.
  intros Hparse Hty Hv Hmongo.
  assert ((mongo_readyState s =? 1) = false) as Hoff
    by (apply Z.eqb_neq; done).
  dispatch v Hparse Hty.
  - unfold handle_getLogs. destruct (getLogs_query rt _ _); mrun; [|done].
    by rewrite query_logs_run, Hoff.
  - destruct Hv as [?|[Hs He]]; [done|]. unfold handle_getLogs_backup.
    rewrite Hs, He. cbn [negb orb].
    destruct (getLogs_query rt _ _); mrun; [|done].
    by rewrite query_logs_run, Hoff.
Qed.

(** X8. A [ping] is answered with [pong], to the sender alone, by the
    backup relay; the deployed relay has no branch for it and stays
    silent. Neither changes the state. *)
Theorem ping_pong_only_in_backup v ws frame data now db_ok s :
  JSON_parse rt frame = Some data ->
  prop data "type" = Some (JStr "ping") ->
  message_handler rt v ws frame now db_ok s
  = (Normal (), s,
     match v with Backup => [Send ws msg_pong] | Deployed => [] end).
Proof.
  intros Hparse Hty. dispatch v Hparse Hty; unfold status_or_command; by mrun.
Qed.

(** X9. [requestStatus] in the backup relay tells the requester whether
    [esp32Socket] is set and open, and only then asks the device for a
    fresh status. Unlike [command] it leaves a stale [esp32Socket] in
    place. The deployed relay has no branch for it. *)
Theorem requestStatus_reports_device ws frame data now db_ok s :
  JSON_parse rt frame = Some data ->
  prop data "type" = Some (JStr "requestStatus") ->
  on_message_backup rt ws frame now db_ok s
  = (Normal (), s,
     match esp32Socket s with
     | Some d =>
         if is_open s d
         then [Send ws (msg_serverStatus true); Send d msg_force_status_update]
         else [Send ws (msg_serverStatus false)]
     | None => [Send ws (msg_serverStatus false)]
     end)
  /\ on_message rt ws frame now db_ok s = (Normal (), s, []).
Proof.
  intros Hparse Hty. split.
  - unfold on_message_backup. rewrite Hparse, (member_type _ _ Hty). mrun.
    unfold status_or_command. mrun. rewrite handle_requestStatus_run.
    destruct (esp32Socket s) as [d|]; [|done]. by destruct (is_open s d).
  - unfold on_message. rewrite Hparse, (member_type _ _ Hty). mrun.
    unfold status_or_command. by mrun.
Qed.

(** X10. A [statusUpdate] from a connection that never identified is
    dropped without a word: nothing is sent, to no dashboard and not to
    the sender, and the state stays as it is. *)
Theorem statusUpdate_of_unflagged_sender_is_ignored
    v ws frame data now db_ok s :
  JSON_parse rt frame = Some data ->
  prop data "type" = Some (JStr "statusUpdate") ->
  sock_isEsp32 s ws = false ->
  message_handler rt v ws frame now db_ok s = (Normal (), s, []).
Proof.
  intros Hparse Hty Hflag.
  dispatch v Hparse Hty; unfold status_or_command; mrun; rewrite Hflag; by mrun.
Qed.

(** X11. A [command] whose [command] and [value] have a text and that
    arrives while [esp32Socket] is set and open goes to the device as the
    envelope that was parsed; the sender gets no reply and the state stays
    as it is. *)
Theorem command_is_forwarded_to_open_device v ws d frame data now db_ok s :
  JSON_parse rt frame = Some data ->
  prop data "type" = Some (JStr "command") ->
  to_text (prop data "command") <> Throw ->
  to_text (prop data "value") <> Throw ->
  esp32Socket s = Some d ->
  sock_readyState s d = OPEN ->
  (message_handler rt v ws frame now db_ok s).1 = (Normal (), s)
  /\ sends (message_handler rt v ws frame now db_ok s).2
     = [(d, msg_envelope data)].
Proof.
  intros Hparse Hty Hc Hv Hdev Hopen.
  assert (message_handler rt v ws frame now db_ok s = handle_command ws data s)
    as ->.
  { dispatch v Hparse Hty; unfold status_or_command; by mrun. }
  rewrite handle_command_run, Hdev, bool_decide_eq_true_2 by done.
  destruct (to_text (prop data "command")); [|done].
  by destruct (to_text (prop data "value")).
Qed.

(** X12. [esp32-identify] always wins the slot: whoever held
    [esp32Socket], the sender holds it afterwards and carries the flag;
    no other [ws] object, the clients and the collection are untouched and
    nothing is sent, the former holder is not told. *)
Theorem identify_takes_the_slot v ws frame data now db_ok s :
  JSON_parse rt frame = Some data ->
  prop data "type" = Some (JStr "esp32-identify") ->
  is_Some (sockets s !! ws) ->
  esp32Socket (message_handler rt v ws frame now db_ok s).1.2 = Some ws
  /\ sock_isEsp32 (message_handler rt v ws frame now db_ok s).1.2 ws = true
  /\ (forall c, c <> ws ->
       sockets (message_handler rt v ws frame now db_ok s).1.2 !! c
       = sockets s !! c)
  /\ clients (message_handler rt v ws frame now db_ok s).1.2 = clients s
  /\ MotorLogs (message_handler rt v ws frame now db_ok s).1.2 = MotorLogs s
  /\ sends (message_handler rt v ws frame now db_ok s).2 = [].
Proof.
  intros Hparse Hty [o Ho].
  rewrite (message_identify rt v ws frame data now db_ok s Hparse Hty),
    handle_identify_run. cbn [fst snd]. repeat split.
  - erewrite sock_isEsp32_flag by done. simpl. rewrite Ho. by rewrite decide_True.
  - intros c Hc. simpl. by rewrite lookup_alter_ne.
Qed.

Lemma slot_is_client_handler_invariant ws :
  handler_invariant ws (fun s => slot_is_client s /\ ws ∈ clients s).
Proof.
  split.
  - intros l s [H Hws]. by split.
  - intros s [H Hws]. split; [|done]. by intros d.
  - intros s [H Hws]. split; [|done]. by intros d [= <-].
Qed.

Lemma step_slot_is_client v ev s :
  routing_ok s -> slot_is_client s ->
  slot_is_client (exec (step rt v ev) s).1.
Proof.
  intros Hok Hs. destruct ev as [|ws frame now db_ok|ws|ws r|r].
  - unfold exec, step. mrun. simpl. intros d Hd. simpl in *.
    apply elem_of_app. left. by apply Hs.
  - rewrite exec_message. unfold is_client. case_bool_decide as Hlive; [|done].
    destruct (message_handler_cases rt v ws frame now db_ok s) as (m & Heq & Hm).
    unfold exec. rewrite Heq.
    pose proof (handler_of_preserves rt ws _ s m
                  (slot_is_client_handler_invariant ws) Hm (conj Hs Hlive))
      as [Hres _].
    by destruct (m s) as [[? ?] ?].
  - rewrite exec_close. unfold is_client. case_bool_decide as Hlive; [|done].
    rewrite exec_on_close.
    change (sock_isEsp32 (with_clients ?l ?s') ws) with (sock_isEsp32 s' ws).
    rewrite sock_isEsp32_set_readyState.
    destruct (sock_isEsp32 s ws) eqn:Hflag; simpl; [by intros d|].
    intros d Hd. simpl in Hd. apply list_elem_of_In, filter_In. split.
    + by apply list_elem_of_In, Hs.
    + apply negb_true_iff, Nat.eqb_neq. intros ->.
      pose proof (device_flagged _ Hok ws Hd). congruence.
  - unfold exec, step. rewrite bind_gets. destruct (is_client s ws); [|done].
    by mrun.
  - unfold exec, step. by mrun.
Qed.

(** X13. In every state the relay reaches, [esp32Socket] is [null] or
    points at a connection that is still in [wss.clients] (its ['close']
    has not been handled) and that carries the device flag. *)
Theorem slot_holds_a_flagged_client v evs d :
  esp32Socket (after rt v evs initial) = Some d ->
  d ∈ clients (after rt v evs initial)
  /\ sock_isEsp32 (after rt v evs initial) d = true.
Proof.
  intros Hd. split; [|by apply (device_flagged _ (after_routing_ok rt v evs initial initial_routing_ok))].
  revert d Hd. change (slot_is_client (after rt v evs initial)).
  assert (forall s, routing_ok s -> slot_is_client s ->
            slot_is_client (after rt v evs s)) as Hind.
  { induction evs as [|ev evs IH]; intros s Hok Hs; [done|].
    rewrite after_cons. apply IH; [by apply step_routing_ok|by apply step_slot_is_client]. }
  apply Hind; [apply initial_routing_ok|]. by intros d.
Qed.

(** X14. A message that is not [null] and whose [type] is none of the
    handled ones (a number, a string, an array, an object without [type] or
    with another one) is ignored: no reply, no log line, the state stays
    as it is. *)
Theorem unhandled_type_is_ignored v ws frame data now db_ok s :
  JSON_parse rt frame = Some data ->
  data <> JNull ->
  existsb (is_str (prop data "type")) handled_types = false ->
  message_handler rt v ws frame now db_ok s = (Normal (), s, []).
Proof.
  intros Hparse Hnn Hty. simpl in Hty.
  repeat (apply orb_false_iff in Hty as [? Hty]).
  destruct v; unfold message_handler, on_message, on_message_backup;
    rewrite Hparse, (member_not_null data "type" Hnn), bind_ret;
    repeat match goal with H : is_str _ _ = false |- _ => rewrite ?H; revert H end;
    intros; cbn [orb]; cbv iota;
    unfold status_or_command; rewrite bind_gets;
    repeat match goal with H : is_str _ _ = false |- _ => rewrite ?H; clear H end;
    done.
Qed.

Lemma status_or_command_logs ws data ty otherwise s :
  MotorLogs (otherwise s).1.2 = MotorLogs s ->
  MotorLogs (status_or_command ws data ty otherwise s).1.2 = MotorLogs s.
Proof.
  intros Ho. unfold status_or_command. rewrite bind_gets.
  destruct (is_str ty "statusUpdate" && sock_isEsp32 s ws).
  - by rewrite handle_statusUpdate_run.
  - destruct (is_str ty "command"); [|done]. rewrite handle_command_run.
    by repeat case_match.
Qed.

(** X15. Only [uploadLog], [clearLogs] and [deleteLogs] write to the
    collection: a frame of any other type, or of no type, in either relay
    leaves every stored entry in place. *)
Theorem only_log_messages_write_the_collection v ws frame data now db_ok s :
  JSON_parse rt frame = Some data ->
  is_str (prop data "type") "uploadLog" = false ->
  is_str (prop data "type") "clearLogs" = false ->
  is_str (prop data "type") "deleteLogs" = false ->
  MotorLogs (message_handler rt v ws frame now db_ok s).1.2 = MotorLogs s.
Proof.
  intros Hparse Hup Hclear Hdel.
  assert (data = JNull \/ data <> JNull) as [->|Hnn]
    by (destruct data; auto).
  { destruct v; unfold message_handler, on_message, on_message_backup;
      by rewrite Hparse. }
  destruct v; unfold message_handler, on_message, on_message_backup;
    rewrite Hparse, (member_not_null data "type" Hnn), bind_ret, Hup, ?Hclear, ?Hdel;
    cbn [orb]; cbv iota;
    (destruct (is_str (prop data "type") "esp32-identify");
      [by rewrite handle_identify_run|]);
    (destruct (is_str (prop data "type") "getLogs");
      [unfold handle_getLogs, handle_getLogs_backup|]).
  - destruct (getLogs_query rt _ _); mrun; [|done].
    rewrite query_logs_run. by repeat case_match.
  - by apply status_or_command_logs.
  - destruct (negb _ || negb _); [by mrun|].
    destruct (getLogs_query rt _ _); mrun; [|done].
    rewrite query_logs_run. by repeat case_match.
  - apply status_or_command_logs.
    destruct (is_str (prop data "type") "ping"); [done|].
    destruct (is_str (prop data "type") "requestStatus"); [|done].
    rewrite handle_requestStatus_run. by repeat case_match.
Qed.

Lemma connections_handler_invariant ws c0 n0 m0 (R : sock -> ready_state) :
  handler_invariant ws (fun s =>
    clients s = c0 /\ next_socket s = n0 /\ mongo_readyState s = m0 /\
    forall c, sock_readyState s c = R c).
Proof.
  split; [done..|].
  intros s (? & ? & ? & HR). repeat split; try done.
  intros c. rewrite <- HR. unfold sock_readyState. simpl. rewrite lookup_alter.
  case_decide; subst; by destruct (sockets s !! c).
Qed.

(** X16. No message, whatever its frame, opens, closes or registers a
    connection: after the handler [wss.clients], the [readyState] of every
    [ws] object and the state of the mongoose connection are what they
    were. *)
Theorem messages_leave_connections_alone v ws frame now db_ok s :
  clients (message_handler rt v ws frame now db_ok s).1.2 = clients s
  /\ mongo_readyState (message_handler rt v ws frame now db_ok s).1.2
     = mongo_readyState s
  /\ forall c, sock_readyState (message_handler rt v ws frame now db_ok s).1.2 c
              = sock_readyState s c.
Proof.
  destruct (message_handler_cases rt v ws frame now db_ok s) as (m & -> & Hm).
  pose proof (handler_of_preserves rt ws _ s m
    (connections_handler_invariant ws (clients s) (next_socket s)
       (mongo_readyState s) (sock_readyState s)) Hm) as H.
  destruct H as (? & ? & ? & ?); done.
Qed.

Lemma handler_of_routed ws s m c msg :
  handler_of rt s ws m -> Send c msg ∈ (m s).2 -> routed s ws c msg.
Proof.
  intros Hm. rewrite list_elem_of_In.
  destruct Hm;
    unfold handle_identify, handle_uploadLog, handle_getLogs,
      handle_getLogs_backup, query_logs, handle_clearLogs,
      handle_deleteLogs_backup, handle_requestStatus, handle_command;
    try rewrite handle_statusUpdate_run.
  all: mcase.
  all: try (simpl; intros Hin;
    repeat match goal with
      | H : _ \/ _ |- _ => destruct H as [H|H]
      | H : False |- _ => destruct H
      end; try discriminate; simplify_eq; simpl;
    repeat match goal with
      | H : bool_decide _ = true |- _ => apply bool_decide_eq_true in H
      | H : is_open _ _ = true |- _ =>
          unfold is_open in H; apply bool_decide_eq_true in H
      end; by auto).
  intros (c' & [= -> <-] & Hin)%in_map_iff. simpl. by apply list_elem_of_In.
Qed.

(** X17. Every message the relay sends while it handles a frame goes
    where it belongs: a [logHistory], [error], [pong] or [serverStatus]
    only to the connection that sent the frame, a forwarded command or a
    status request only to the connection in [esp32Socket] and only while
    that is open, a status only to open connections without the device
    flag. *)
Theorem every_send_is_routed v ws frame now db_ok s c msg :
  Send c msg ∈ (message_handler rt v ws frame now db_ok s).2 ->
  routed s ws c msg.
Proof.
  destruct (message_handler_cases rt v ws frame now db_ok s) as (m & -> & Hm).
  by apply handler_of_routed.
Qed.

Lemma TimeClip_idem t u : JsDate.TimeClip t = Some u -> JsDate.TimeClip u = Some u.
Proof. unfold JsDate.TimeClip. case_match eqn:H; [|done]. intros [= <-]. by rewrite H. Qed.

Lemma delete_range_is_query_range startDate endDate :
  truthy startDate = true ->
  truthy endDate = true ->
  deleteLogs_match rt startDate endDate = getLogs_query rt startDate endDate.
Proof.
  intros Hs He. unfold deleteLogs_match, getLogs_query, end_of_day.
  rewrite Hs, He. cbn [andb orb].
  destruct (new_Date rt startDate) as [start|]; [|done].
  destruct (new_Date rt endDate) as [end_|]; [|done].
  cbn [mbind completion_bind fmap completion_fmap]. do 4 f_equal.
  destruct (setDate rt end_ (plus1 (getDate rt end_))) as [u|] eqn:Hu; [|done].
  unfold setDate in Hu. repeat case_match; try done. by apply TimeClip_idem in Hu.
Qed.

(** X18. In the backup relay [deleteLogs] and [getLogs] build the same
    filter from the same two dates, though the code that computes the end
    of the range is written differently: what a range query selects is
    what a delete over that range removes. *)
Theorem deleteLogs_filter_is_getLogs_filter startDate endDate :
  truthy startDate = true ->
  truthy endDate = true ->
  deleteLogs_match rt startDate endDate = getLogs_query rt startDate endDate.
Proof. apply delete_range_is_query_range. Qed.

(** X19. A [deleteLogs] over a range, in the backup relay with the store
    connected and the delete going through, removes the entries the filter
    matches and keeps the others in their order; the requester is told how
    many went, and gets no empty [logHistory] (the table is not cleared).
    Removed and kept add up to what was there. *)
Theorem deleteLogs_over_a_range ws frame data q now s :
  JSON_parse rt frame = Some data ->
  prop data "type" = Some (JStr "deleteLogs") \/
  prop data "type" = Some (JStr "clearLogs") ->
  truthy (prop (payload_or_empty data) "startDate") = true ->
  truthy (prop (payload_or_empty data) "endDate") = true ->
  getLogs_query rt (prop (payload_or_empty data) "startDate")
                   (prop (payload_or_empty data) "endDate") = Normal q ->
  cast_ok q = true ->
  mongo_readyState s = 1 ->
  let kept := List.filter (fun e => negb (matches q e)) (MotorLogs s) in
  let gone := List.filter (matches q) (MotorLogs s) in
  (on_message_backup rt ws frame now true s).1 = (Normal (), with_MotorLogs kept s)
  /\ MotorLogs (on_message_backup rt ws frame now true s).1.2 = kept
  /\ sends (on_message_backup rt ws frame now true s).2
     = [(ws, msg_error ("Deleted " +:+ pretty (Z.of_nat (List.length gone))
                        +:+ " logs."))]
  /\ (List.length kept + List.length gone = List.length (MotorLogs s))%nat.
Proof.
  intros Hparse Hty Hs He Hq Hcast Hmongo. cbv zeta.
  assert (on_message_backup rt ws frame now true s
          = handle_deleteLogs_backup rt ws data true s) as ->.
  { destruct Hty as [Hty|Hty]; unfold on_message_backup;
      rewrite Hparse, (member_type _ _ Hty); by mrun. }
  unfold handle_deleteLogs_backup.
  rewrite (delete_range_is_query_range _ _ Hs He), Hq.
  assert (exists r, q = Some r) as [r Hr].
  { unfold getLogs_query in Hq. rewrite Hs in Hq. cbn [orb] in Hq.
    destruct (new_Date rt _); [|done].
    destruct (if truthy _ then _ else _); [|done].
    cbn [mbind completion_bind fmap completion_fmap] in Hq. simplify_eq. eauto. }
  mrun. rewrite Hmongo, Hcast. mrun. rewrite Hr. mrun. rewrite <- Hr.
  repeat split.
  clear. induction (MotorLogs s) as [|e l IH]; [done|].
  simpl. destruct (matches q e); simpl; lia.
Qed.

(** X20. On a host whose offset from UTC never changes (a host on UTC,
    say), every entry of the [logHistory] reply to a [getLogs] with two
    [YYYY-MM-DD] dates is an entry of the collection whose server time lies
    from 00:00 UTC of the start date up to, and without, 00:00 UTC of the
    day after the end date. *)
Theorem getLogs_reply_lies_within_the_days
    v off ws frame data sd ed a b now db_ok s c payload e :
  (forall t isUTC, LocalTZA rt t isUTC = off) ->
  JSON_parse rt frame = Some data ->
  prop data "type" = Some (JStr "getLogs") ->
  prop (payload_or_empty data) "startDate" = Some (JStr sd) ->
  prop (payload_or_empty data) "endDate" = Some (JStr ed) ->
  JsDate.iso_date_only sd = Some a ->
  JsDate.iso_date_only ed = Some b ->
  Send c (msg_logHistory payload) ∈ (message_handler rt v ws frame now db_ok s).2 ->
  e ∈ payload ->
  e ∈ MotorLogs s
  /\ JsDate.utc_midnight a <= serverTime e < JsDate.utc_midnight b + JsDate.msPerDay.
Proof.
  intros Hoff Hparse Hty Hsd Hed Ha Hb Hin He.
  destruct (getLogs_selects_whole_days rt off sd ed a b Hoff Ha Hb)
    as (q & Hq & Hdays).
  assert (Send c (msg_logHistory payload)
          ∈ (query_logs ws q db_ok
               match v with
               | Deployed => None
               | Backup => Some (msg_error "Database Error. Check Server Logs.")
               end s).2) as Hsent.
  { revert Hin. dispatch v Hparse Hty.
    - unfold handle_getLogs. rewrite Hsd, Hed, Hq. by mrun.
    - unfold handle_getLogs_backup. rewrite Hsd, Hed.
      assert (truthy (Some (JStr sd)) = true) as ->.
      { simpl. apply JsDateFacts.iso_date_only_nonempty in Ha. by destruct sd. }
      assert (truthy (Some (JStr ed)) = true) as ->.
      { simpl. apply JsDateFacts.iso_date_only_nonempty in Hb. by destruct ed. }
      cbn [negb orb]. rewrite Hq. by mrun. }
  rewrite query_logs_run in Hsent.
  assert (payload = [] \/
          payload = find_sort_limit q (MotorLogs s)) as [-> | ->].
  { rewrite list_elem_of_In in Hsent. repeat case_match; simpl in Hsent;
      repeat match goal with
        | H : _ \/ _ |- _ => destruct H as [H|H]
        | H : False |- _ => destruct H
        end; try discriminate; simplify_eq; auto. }
  { by apply elem_of_nil in He. }
  apply find_sort_limit_matches in He as [He Hm]. split; [done|].
  by apply Hdays.
Qed.

(** X21. A [getLogs] whose filter gets built (no [new Date] of the message
    throws) with a start or an end date that [new Date] cannot read
    (Invalid Date) never gets its query to the store: with the store
    connected, the deployed relay logs the failure and leaves the requester
    without any answer, whether or not the store would have answered. *)
Theorem deployed_getLogs_with_invalid_date_gets_no_answer
    ws frame data q now db_ok s :
  JSON_parse rt frame = Some data ->
  prop data "type" = Some (JStr "getLogs") ->
  getLogs_query rt (prop (payload_or_empty data) "startDate")
                   (prop (payload_or_empty data) "endDate") = Normal q ->
  (truthy (prop (payload_or_empty data) "startDate") = true /\
   new_Date rt (prop (payload_or_empty data) "startDate") = Normal None) \/
  (truthy (prop (payload_or_empty data) "endDate") = true /\
   new_Date rt (prop (payload_or_empty data) "endDate") = Normal None) ->
  mongo_readyState s = 1 ->
  on_message rt ws frame now db_ok s
  = (Normal (), s, [Console Error [Txt "DB Query Fail:"; Err]]).
Proof.
  intros Hparse Hty Hq Hbad Hmongo. unfold on_message.
  rewrite Hparse, (member_type _ _ Hty). mrun. unfold handle_getLogs.
  rewrite Hq. mrun. rewrite query_logs_run, Hmongo. cbn [Z.eqb Pos.eqb].
  assert (cast_ok q = false) as ->.
  { unfold getLogs_query, end_of_day in Hq.
    destruct Hbad as [[Ht Hd]|[Ht Hd]]; rewrite Ht, Hd in Hq.
    - cbn [orb mbind completion_bind fmap completion_fmap] in Hq.
      destruct (if truthy _ then _ else _); [|done].
      cbn [mbind completion_bind] in Hq. by simplify_eq.
    - rewrite orb_true_r in Hq.
      destruct (if truthy _ then _ else _); [|done].
      cbn [mbind completion_bind fmap completion_fmap] in Hq. simplify_eq.
      simpl. apply andb_false_r. }
  by rewrite andb_false_r.
Qed.

Lemma step_has_left v ev s ws :
  has_left ws s -> has_left ws (exec (step rt v ev) s).1.
Proof.
  intros [Hout Hold]. destruct ev as [|ws' frame now db_ok|ws'|ws' r|r].
  - unfold exec, step. mrun. simpl. split; simpl; [|lia].
    rewrite elem_of_app, list_elem_of_singleton. intros [?| ->]; [done|lia].
  - rewrite exec_message. destruct (is_client s ws'); [|done].
    destruct (message_handler_cases rt v ws' frame now db_ok s) as (m & Heq & Hm).
    unfold exec. rewrite Heq.
    pose proof (handler_of_preserves rt ws' _ s m
      (connections_handler_invariant ws' (clients s) (next_socket s)
         (mongo_readyState s) (sock_readyState s)) Hm) as H.
    destruct (m s) as [[? s'] ?]. simpl in *.
    destruct H as (Hc & Hn & _); [done|]. split; by rewrite ?Hc, ?Hn.
  - rewrite exec_close. destruct (is_client s ws'); [|done].
    rewrite exec_on_close. case_match; unfold has_left; simpl; (split; [|done]);
      rewrite list_elem_of_In, filter_In, <- list_elem_of_In; tauto.
  - unfold exec, step. rewrite bind_gets. destruct (is_client s ws'); [|done].
    by mrun.
  - unfold exec, step. by mrun.
Qed.

Lemma step_sends_to_clients v ev s c msg :
  slot_is_client s ->
  Send c msg ∈ (exec (step rt v ev) s).2 ->
  c ∈ clients s.
Proof.
  intros Hslot. destruct ev as [|ws frame now db_ok|ws|ws r|r].
  - unfold exec, step. mrun. simpl. by intros [=]%list_elem_of_singleton.
  - rewrite exec_message. unfold is_client. case_bool_decide as Hlive;
      [|by intros ?%elem_of_nil].
    destruct (message_handler_cases rt v ws frame now db_ok s) as (m & Heq & Hm).
    unfold exec. rewrite Heq. intros Hin.
    assert (routed s ws c msg) as Hr.
    { apply (handler_of_routed ws s m c msg Hm). by destruct (m s) as [[? ?] ?]. }
    destruct msg; simpl in Hr; subst; try done.
    + by apply handle_statusUpdate_recipient in Hr as [? _].
    + destruct Hr as [Hr _]. by apply Hslot.
    + destruct Hr as [Hr _]. by apply Hslot.
  - rewrite exec_close. destruct (is_client s ws); [|by intros ?%elem_of_nil].
    rewrite exec_on_close. case_match; simpl.
    + by intros [=]%list_elem_of_singleton.
    + by intros ?%elem_of_nil.
  - unfold exec, step. rewrite bind_gets. destruct (is_client s ws);
      [mrun|]; by intros ?%elem_of_nil.
  - unfold exec, step. mrun. by intros ?%elem_of_nil.
Qed.

Lemma trace_spares_who_left v evs s ws msg :
  routing_ok s -> slot_is_client s -> has_left ws s ->
  Send ws msg ∉ trace rt v evs s.
Proof.
  revert s. induction evs as [|ev evs IH]; intros s Hok Hslot Hleft.
  { by intros ?%elem_of_nil. }
  rewrite trace_cons, elem_of_app. intros [Hin|Hin].
  - apply step_sends_to_clients in Hin; [|done]. by destruct Hleft.
  - revert Hin. apply IH;
      [by apply step_routing_ok|by apply step_slot_is_client|by apply step_has_left].
Qed.

Lemma after_slot_is_client v evs s :
  routing_ok s -> slot_is_client s -> slot_is_client (after rt v evs s).
Proof.
  revert s. induction evs as [|ev evs IH]; intros s Hok Hs; [done|].
  rewrite after_cons. apply IH; [by apply step_routing_ok|by apply step_slot_is_client].
Qed.

(** X22. Once the ['close'] of a connection has been handled, the relay
    never pushes anything to it again: no status broadcast, no forwarded
    command and no request for a status, whatever comes after and whoever
    identifies later. *)
Theorem nothing_is_pushed_after_close v evs1 ws evs2 msg :
  is_client (after rt v evs1 initial) ws = true ->
  pushed msg ->
  (ws, msg) ∉ sends (trace rt v evs2 (after rt v (evs1 ++ [close ws]) initial)).
Proof.
  intros Hlive _. rewrite elem_of_sends.
  pose proof (after_routing_ok rt v evs1 initial initial_routing_ok) as Hok1.
  assert (slot_is_client (after rt v evs1 initial)) as Hslot1.
  { apply after_slot_is_client; [apply initial_routing_ok|by intros d]. }
  rewrite after_app, after_cons, after_nil.
  apply trace_spares_who_left.
  - by apply step_routing_ok.
  - by apply step_slot_is_client.
  - rewrite exec_close, Hlive, exec_on_close.
    unfold is_client in Hlive. apply bool_decide_eq_true in Hlive.
    assert (ws < next_socket (after rt v evs1 initial))%nat as Hold
      by by apply (sockets_fresh _ Hok1), (clients_alive _ Hok1).
    case_match; unfold has_left; simpl; (split; [|done]);
      rewrite list_elem_of_In, filter_In, Nat.eqb_refl; simpl; by intros [_ ?].
Qed.

End RelayExtras.

(* ===================================================================== *)
(** ** Facts about the firmware *)
(* ===================================================================== *)

Section FirmwareFacts.

Import Firmware.

Lemma pretty_N_char_digit x : is_Some (JsDate.digit (pretty_N_char x)).
Proof. unfold pretty_N_char. repeat case_match; vm_compute; eauto. Qed.

Lemma pretty_N_go_digits x s :
  all_digits s = true -> all_digits (pretty_N_go x s) = true.
Proof.
  revert s. induction (N.lt_wf_0 x) as [x _ IH]. intros s Hs.
  assert (x = 0 \/ 0 < x)%N as [->|Hx] by lia.
  { by rewrite pretty_N_go_0. }
  rewrite pretty_N_go_step by done. apply IH.
  - apply N.div_lt; lia.
  - simpl. rewrite Hs, andb_true_r. apply bool_decide_eq_true, pretty_N_char_digit.
Qed.

Lemma pretty_N_digits (x : N) : all_digits (pretty x) = true.
Proof.
  unfold pretty, pretty_N. case_decide; [done|]. by apply pretty_N_go_digits.
Qed.

(** Two numerals, each followed by a character that is not a digit. *)
Lemma digits_then_other s1 s2 c1 c2 r1 r2 :
  all_digits s1 = true -> all_digits s2 = true ->
  JsDate.digit c1 = None -> JsDate.digit c2 = None ->
  s1 +:+ String c1 r1 = s2 +:+ String c2 r2 ->
  s1 = s2 /\ c1 = c2 /\ r1 = r2.
Proof.
  revert s2. induction s1 as [|a s1 IH]; intros [|b s2] H1 H2 Hc1 Hc2 Heq;
    simpl in *.
  - by simplify_eq.
  - simplify_eq. apply andb_prop in H2 as [H2%bool_decide_eq_true _].
    rewrite Hc1 in H2. by destruct H2.
  - simplify_eq. apply andb_prop in H1 as [H1%bool_decide_eq_true _].
    rewrite Hc2 in H1. by destruct H1.
  - injection Heq as -> Heq.
    apply andb_prop in H1 as [_ H1]. apply andb_prop in H2 as [_ H2].
    destruct (IH s2 H1 H2 Hc1 Hc2 Heq) as (-> & -> & ->). done.
Qed.

Lemma numeral_then_unit (a b : N) c1 c2 r1 r2 :
  JsDate.digit c1 = None -> JsDate.digit c2 = None ->
  pretty a +:+ String c1 r1 = pretty b +:+ String c2 r2 ->
  a = b /\ c1 = c2 /\ r1 = r2.
Proof.
  intros Hc1 Hc2 Heq.
  destruct (digits_then_other _ _ _ _ _ _ (pretty_N_digits a) (pretty_N_digits b)
              Hc1 Hc2 Heq) as (Hp & -> & ->).
  by apply (inj pretty) in Hp.
Qed.

Lemma append_assoc (s1 s2 s3 : string) : (s1 +:+ s2) +:+ s3 = s1 +:+ (s2 +:+ s3).
Proof.
  induction s1 as [|a s1 IH]; [done|].
  change (String a ((s1 +:+ s2) +:+ s3) = String a (s1 +:+ (s2 +:+ s3))).
  by rewrite IH.
Qed.

Lemma append_cons a (s r : string) : String a s +:+ r = String a (s +:+ r).
Proof. reflexivity. Qed.

Lemma append_nil (r : string) : "" +:+ r = r.
Proof. reflexivity. Qed.

Lemma length_append (s1 s2 : string) :
  String.length (s1 +:+ s2) = (String.length s1 + String.length s2)%nat.
Proof.
  induction s1 as [|a s1 IH]; [done|].
  change (S (String.length (s1 +:+ s2))
          = S (String.length s1 + String.length s2)).
  by rewrite IH.
Qed.

(** The text of a duration: hours and minutes where they are not zero,
    then the seconds. *)
Lemma formatDuration_parts n :
  formatDuration n
  = (if (0 <? n / 3600)%N then pretty (n / 3600)%N +:+ "h " else "")
    +:+ (if (0 <? (n mod 3600) / 60)%N
         then pretty ((n mod 3600) / 60)%N +:+ "m " else "")
    +:+ pretty ((n mod 3600) mod 60)%N +:+ "s".
Proof.
  unfold formatDuration. destruct (n <? 60)%N eqn:Hn.
  - apply N.ltb_lt in Hn.
    rewrite (N.div_small n 3600), (N.mod_small n 3600),
      (N.div_small n 60), (N.mod_small n 60) by lia. done.
  - cbv zeta.
    destruct (0 <? n / 3600)%N, (0 <? (n mod 3600) / 60)%N;
      by rewrite ?append_nil, ?append_assoc.
Qed.

Lemma seconds_of_parts (a b : N) :
  (a / 3600 = b / 3600)%N ->
  ((a mod 3600) / 60 = (b mod 3600) / 60)%N ->
  ((a mod 3600) mod 60 = (b mod 3600) mod 60)%N ->
  a = b.
Proof.
  intros Hh Hm Hs.
  pose proof (N.div_mod a 3600). pose proof (N.div_mod b 3600).
  pose proof (N.div_mod (a mod 3600) 60). pose proof (N.div_mod (b mod 3600) 60).
  lia.
Qed.

(** X23. [formatDuration] never gives two durations the same text: the
    duration can be read back from what a log entry shows. *)
Theorem formatDuration_is_injective a b :
  formatDuration a = formatDuration b -> a = b.
Proof.
  rewrite !formatDuration_parts. intros Heq.
  apply seconds_of_parts;
    destruct (0 <? a / 3600)%N eqn:Ha1, (0 <? (a mod 3600) / 60)%N eqn:Ha2,
             (0 <? b / 3600)%N eqn:Hb1, (0 <? (b mod 3600) / 60)%N eqn:Hb2;
    rewrite ?N.ltb_lt, ?N.ltb_ge in *;
    rewrite ?append_assoc in Heq; rewrite ?append_cons, ?append_nil in Heq;
    repeat (simplify_eq;
      match goal with
      | H : pretty _ +:+ String _ _ = pretty _ +:+ String _ _ |- _ =>
          apply numeral_then_unit in H as (? & ? & ?); [|done..]
      end);
    try discriminate; simplify_eq;
    rewrite ?N.le_0_r in *; congruence.
Qed.

(** *** The calendar fields and the time stamps *)

Lemma DaysInYear_cases y : JsDate.DaysInYear y = 365 \/ JsDate.DaysInYear y = 366.
Proof.
  unfold JsDate.DaysInYear, JsDate.DayFromYear.
  Z.to_euclidean_division_equations; lia.
Qed.

Lemma DateFromTime_range t : 1 <= JsDate.DateFromTime t <= 31.
Proof.
  pose proof (JsDateFacts.YearFromTime_spec t) as Hy.
  pose proof (DaysInYear_cases (JsDate.YearFromTime t)) as Hd.
  unfold JsDate.DateFromTime, JsDate.MonthFromTime, JsDate.InLeapYear,
    JsDate.DayWithinYear, JsDate.DaysInYear in *.
  revert Hy Hd. generalize (JsDate.Day t) as d.
  generalize (JsDate.DayFromYear (JsDate.YearFromTime t)) as y0.
  generalize (JsDate.DayFromYear (JsDate.YearFromTime t + 1)) as y1.
  intros y1 y0 d Hy Hd. unfold JsDate.month_of_day.
  destruct Hd as [Hd|Hd]; rewrite Hd; simpl (_ =? _);
    repeat case_match; simpl; lia.
Qed.

Lemma two_digits_length n : 0 <= n < 100 -> String.length (two_digits n) = 2%nat.
Proof.
  intros Hn. rewrite <- (Z2Nat.id n) by lia.
  assert (Z.to_nat n < 100)%nat as Hk by lia.
  revert Hk. generalize (Z.to_nat n) as k. intros k Hk.
  do 100 (destruct k as [|k]; [vm_compute; reflexivity|]). lia.
Qed.

Lemma expand_format_length t :
  1 <= tm_mday t <= 31 -> 0 <= tm_mon t <= 11 ->
  0 <= tm_hour t <= 23 -> 0 <= tm_min t <= 59 ->
  String.length (expand_format t) = 13%nat.
Proof.
  intros Hd Hm Hh Hmin. unfold expand_format.
  rewrite !length_append, !two_digits_length.
  - by destruct (tm_hour t <? 12).
  - lia.
  - destruct (tm_hour t mod 12 =? 0) eqn:H0; [lia|].
    apply Z.eqb_neq in H0. pose proof (Z.mod_pos_bound (tm_hour t) 12). lia.
  - lia.
  - lia.
Qed.

Lemma localtime_ranges t :
  1 <= tm_mday (localtime t) <= 31 /\ 0 <= tm_mon (localtime t) <= 11 /\
  0 <= tm_hour (localtime t) <= 23 /\ 0 <= tm_min (localtime t) <= 59.
Proof.
  unfold localtime. simpl. split; [apply DateFromTime_range|].
  split; [apply JsDateFacts.month_of_day_range|].
  Z.to_euclidean_division_equations; lia.
Qed.

Lemma stamp_length_and_fit t :
  String.length (expand_format (localtime t)) = 13%nat
  /\ strftime 20 (localtime t) = Some (expand_format (localtime t)).
Proof.
  destruct (localtime_ranges t) as (Hd & Hm & Hh & Hmin).
  pose proof (expand_format_length _ Hd Hm Hh Hmin) as Hlen.
  split; [done|]. unfold strftime. by rewrite Hlen.
Qed.

(** X24. The time stamps of a log entry always come out as thirteen
    characters ([dd/mm hh:mmAM]), so [strftime] always fits them, with the
    closing zero, into the twenty characters of [onTimeStr] and
    [offTimeStr] and the buffers are never read unfilled. *)
Theorem time_stamps_fit_their_buffers t :
  String.length (expand_format (localtime t)) = 13%nat
  /\ strftime 20 (localtime t) = Some (expand_format (localtime t)).
Proof. apply stamp_length_and_fit. Qed.

(** [addMotorLog] without the indeterminate case. *)
Lemma addMotorLog_run env onTimestamp offTimestamp :
  addMotorLog env onTimestamp offTimestamp
  = let head :=
      [Serial_print "Attempting to Log... Synced: ";
       Serial_println (if timeSynced env then "1" else "0")] in
    let duration := to_unsigned_long (offTimestamp - onTimestamp) in
    let log :=
      [Serial_print "Log: "; Serial_print (pretty duration); Serial_println "s"] in
    if negb (timeSynced env) || (onTimestamp =? 0) || (offTimestamp <? onTimestamp)
    then Some (head ++ [Serial_println "Log Failed: Time issue or invalid timestamp"])
    else if (86400 <? duration)%N then Some head
    else if isConnected env then
      Some (head ++ log ++
            [sendTXT (uploadLog_doc (WiFi_macAddress env)
                        (expand_format (localtime onTimestamp))
                        (expand_format (localtime offTimestamp))
                        (formatDuration duration));
             Serial_println "Log Sent to Server"])
    else Some (head ++ log ++ [Serial_println "Log Failed: WS Not Connected"]).
Proof.
  unfold addMotorLog. cbv zeta.
  destruct (stamp_length_and_fit onTimestamp) as [_ ->].
  destruct (stamp_length_and_fit offTimestamp) as [_ ->].
  done.
Qed.

(** X25. [addMotorLog] always runs to a defined end, and it uploads a log
    exactly when the clock is synced, the start time is not 0 and not after
    the end time, the span (its remainder modulo 2^32, as an
    [unsigned long]) is at most 86400 seconds and the socket is connected.
    The one document it then sends carries the MAC address, the two time
    stamps and that span as [formatDuration] writes it. *)
Theorem addMotorLog_uploads_exactly_when env onTimestamp offTimestamp :
  exists out,
    addMotorLog env onTimestamp offTimestamp = Some out /\
    forall doc,
      sendTXT doc ∈ out <->
      (timeSynced env = true /\ onTimestamp <> 0 /\ onTimestamp <= offTimestamp /\
       (to_unsigned_long (offTimestamp - onTimestamp) <= 86400)%N /\
       isConnected env = true /\
       doc = uploadLog_doc (WiFi_macAddress env)
               (expand_format (localtime onTimestamp))
               (expand_format (localtime offTimestamp))
               (formatDuration (to_unsigned_long (offTimestamp - onTimestamp)))).
Proof.
  rewrite addMotorLog_run. cbv zeta.
  destruct (timeSynced env) eqn:Hsync; simpl negb; cbn [orb];
    [|eexists; split; [done|]; intros doc; rewrite list_elem_of_In; simpl;
      intuition congruence].
  destruct (onTimestamp =? 0) eqn:H0; cbn [orb];
    [apply Z.eqb_eq in H0; eexists; split; [done|]; intros doc;
     rewrite list_elem_of_In; simpl; intuition congruence|].
  apply Z.eqb_neq in H0.
  destruct (offTimestamp <? onTimestamp) eqn:Hlt;
    [apply Z.ltb_lt in Hlt; eexists; split; [done|]; intros doc;
     rewrite list_elem_of_In; simpl; intuition (try congruence; lia)|].
  apply Z.ltb_ge in Hlt.
  destruct (86400 <? to_unsigned_long (offTimestamp - onTimestamp))%N eqn:Hd;
    [apply N.ltb_lt in Hd; eexists; split; [done|]; intros doc;
     rewrite list_elem_of_In; simpl; intuition (try congruence; lia)|].
  apply N.ltb_ge in Hd.
  destruct (isConnected env) eqn:Hc; eexists; (split; [done|]); intros doc;
    rewrite list_elem_of_In; simpl; intuition congruence.
Qed.

(** *** The status report *)



End FirmwareFacts.

Section FirmwareAndRelay.

Context (rt : runtime).
Import Firmware.

(** X27. What the firmware uploads, the relay stores: when the frame of
    an upload of [addMotorLog] parses to the document that was sent, and
    the store is connected and takes the write, the collection grows by one
    entry with the MAC address, the two time stamps and the duration of the
    firmware, under the time of the server. *)
Theorem firmware_upload_is_stored
    v env onTimestamp offTimestamp out doc ws frame now s :
  addMotorLog env onTimestamp offTimestamp = Some out ->
  sendTXT doc ∈ out ->
  JSON_parse rt frame = Some doc ->
  mongo_readyState s = 1 ->
  let entry :=
    {| macAddress := Some (JStr (WiFi_macAddress env));
       onTime := Some (JStr (expand_format (localtime onTimestamp)));
       offTime := Some (JStr (expand_format (localtime offTimestamp)));
       duration := Some (JStr (formatDuration
                     (to_unsigned_long (offTimestamp - onTimestamp))));
       serverTime := now |} in
  (message_handler rt v ws frame now true s).1
  = (Normal (), with_MotorLogs (MotorLogs s ++ [entry]) s)
  /\ MotorLogs (message_handler rt v ws frame now true s).1.2
     = MotorLogs s ++ [entry].
Proof.
  intros Hrun Hin Hparse Hmongo. cbv zeta.
  assert (doc = uploadLog_doc (WiFi_macAddress env)
                  (expand_format (localtime onTimestamp))
                  (expand_format (localtime offTimestamp))
                  (formatDuration (to_unsigned_long (offTimestamp - onTimestamp))))
    as ->.
  { rewrite addMotorLog_run in Hrun. cbv zeta in Hrun.
    rewrite list_elem_of_In in Hin.
    repeat case_match; simplify_eq; simpl in Hin;
      repeat match goal with
        | H : _ \/ _ |- _ => destruct H as [H|H]
        | H : False |- _ => destruct H
        end; try discriminate; by simplify_eq. }
  assert (message_handler rt v ws frame now true s
          = handle_uploadLog
              (uploadLog_doc (WiFi_macAddress env)
                 (expand_format (localtime onTimestamp))
                 (expand_format (localtime offTimestamp))
                 (formatDuration (to_unsigned_long (offTimestamp - onTimestamp))))
              now true s) as ->.
  { destruct v; unfold message_handler, on_message, on_message_backup;
      rewrite Hparse, (member_type (uploadLog_doc _ _ _ _) "uploadLog" eq_refl);
      by mrun. }
  erewrite handle_uploadLog_run; [|reflexivity|done].
  rewrite Hmongo. by split.
Qed.

(** X28. What the device reports, the dashboards get: when the frame of a
    status report of [sendStatusUpdate] parses to the document that was
    sent and comes from a connection that has identified, every open
    connection without the device flag gets a [statusUpdate] with the
    seven fields of the report, and nobody else gets anything. *)
Theorem firmware_status_reaches_dashboards v r g doc ws frame now db_ok s :
  sendTXT doc ∈ (sendStatusUpdate r g).2 ->
  JSON_parse rt frame = Some doc ->
  sock_isEsp32 s ws = true ->
  sends (message_handler rt v ws frame now db_ok s).2
  = List.map
      (fun c =>
         (c, msg_statusUpdate (Some (JObj
            [("wsHost", JStr (websocket_server_host g));
             ("localIP", JStr (WiFi_localIP r));
             ("wifiSignal", JNum (wifiSignal (sendStatusUpdate r g).1));
             ("lastAction", JStr (lastAction g));
             ("doorStatus", JStr (lastDoorStatus g));
             ("systemMode",
              JStr (if SWITCH_SECURITY_low r then "Secured" else "Normal"));
             ("motorStatus", JStr (lastMotorStatus g))]))))
      (status_recipients s).
Proof.
  intros Hin Hparse Hflag.
  assert (doc = statusUpdate_doc (sendStatusUpdate r g).1 (WiFi_localIP r)) as ->.
  { unfold sendStatusUpdate in Hin. cbn [snd] in Hin.
    destruct (webSocket_isConnected r); [|by apply elem_of_nil in Hin].
    apply list_elem_of_singleton in Hin. by simplify_eq. }
  rewrite (message_statusUpdate rt v ws frame
             (statusUpdate_doc (sendStatusUpdate r g).1 (WiFi_localIP r))
             now db_ok s Hparse eq_refl Hflag).
  cbn [snd]. induction (status_recipients s) as [|c l IH]; [done|].
  simpl in *. f_equal. apply IH.
Qed.

End FirmwareAndRelay.

(* ===================================================================== *)
(** ** More runs on concrete inputs *)
(* ===================================================================== *)

Section MoreExamples.

Import Sample SampleMore.


Lemma uploadLog_lost_without_store_witness :
  (message_handler utc Deployed 0 upload_object 0 true (with_two_logs Deployed)).1
  = (Normal (), with_two_logs Deployed).
Proof.
  refine (proj1 (uploadLog_lost_without_store utc Deployed 0%nat upload_object
            (JObj [("payload",
                    JObj [("duration", JStr "5m"); ("offTime", JStr "10:05");
                          ("onTime", JObj [("h", JNum 10)]);
                          ("mac", JStr "AA:BB")]);
                   ("type", JStr "uploadLog")])
            (JObj [("duration", JStr "5m"); ("offTime", JStr "10:05");
                   ("onTime", JObj [("h", JNum 10)]); ("mac", JStr "AA:BB")])
            0 true (with_two_logs Deployed) _ _ _ _ _ _ _));
    [ vm_compute; reflexivity | reflexivity | reflexivity | discriminate
    | discriminate | discriminate | right; right; reflexivity ].
Defined.

Lemma null_message_or_payload_throws_witness :
  message_handler utc Backup 0 upload_without_payload 0 true two_dashboards
  = (Throw, two_dashboards, []).
Proof.
  eapply (null_message_or_payload_throws utc Backup 0%nat upload_without_payload _
            0 true two_dashboards);
    [vm_compute; reflexivity | right; split; [reflexivity | left; reflexivity]].
Defined.


Lemma clearLogs_then_getLogs_is_empty_witness :
  MotorLogs (after utc Deployed [message 0 clearLogs 0 true] (with_two_logs Deployed))
  = [].
Proof.
  refine (proj1 (clearLogs_then_getLogs_is_empty utc 0%nat 0%nat clearLogs
            (JObj [("type", JStr "clearLogs")]) getLogs_all
            (JObj [("type", JStr "getLogs")])
            0 0 true (with_two_logs Deployed) 0%nat [] _ _ _ _ _ _ _));
    [ vm_compute; reflexivity | vm_compute; reflexivity | vm_compute; reflexivity
    | reflexivity | vm_compute; reflexivity | reflexivity
    | vm_compute; reflexivity ].
Defined.

Lemma backup_getLogs_requires_range_witness :
  on_message_backup utc 0 getLogs_from_january 0 true (with_two_logs Backup)
  = (Normal (), with_two_logs Backup,
     [ Console Warn [Txt "Log Fetch Denied: Missing Date Range"];
       Send 0%nat (msg_error "Date Range Required") ]).
Proof.
  eapply (backup_getLogs_requires_range utc 0%nat getLogs_from_january _ 0 true
            (with_two_logs Backup));
    [vm_compute; reflexivity | reflexivity | right; reflexivity].
Defined.

Lemma getLogs_without_store_is_empty_witness :
  message_handler utc Deployed 1 getLogs_all 0 true two_dashboards
  = (Normal (), two_dashboards, [Send 1%nat (msg_logHistory [])])
  /\ message_handler utc Deployed 1 getLogs_own_toString 0 true two_dashboards
     = (Throw, two_dashboards, []).
Proof.
  split.
  - refine (eq_trans
      (getLogs_without_store_is_empty utc Deployed 1%nat getLogs_all
         (JObj [("type", JStr "getLogs")]) 0 true two_dashboards _ _ _ _) _);
      [vm_compute; reflexivity | reflexivity | left; reflexivity
      | vm_compute; discriminate | reflexivity].
  - refine (eq_trans
      (getLogs_without_store_is_empty utc Deployed 1%nat getLogs_own_toString
         (JObj [("payload", JObj [("startDate", JObj [("toString", JNum 1)])]);
                ("type", JStr "getLogs")])
         0 true two_dashboards _ _ _ _) _);
      [vm_compute; reflexivity | reflexivity | left; reflexivity
      | vm_compute; discriminate | reflexivity].
Defined.

Lemma ping_pong_only_in_backup_witness :
  message_handler utc Backup 1 ping 0 true two_dashboards
  = (Normal (), two_dashboards, [Send 1%nat msg_pong]).
Proof.
  eapply (ping_pong_only_in_backup utc Backup 1%nat ping _ 0 true two_dashboards);
    [vm_compute; reflexivity | reflexivity].
Defined.

Lemma requestStatus_reports_device_witness :
  on_message_backup utc 1 requestStatus 0 true device_closing
  = (Normal (), device_closing, [Send 1%nat (msg_serverStatus false)]).
Proof.
  refine (eq_trans
    (proj1 (requestStatus_reports_device utc 1%nat requestStatus
              (JObj [("type", JStr "requestStatus")]) 0 true device_closing _ _))
    _); vm_compute; reflexivity.
Defined.

Lemma statusUpdate_of_unflagged_sender_is_ignored_witness :
  message_handler utc Deployed 1 status_on 0 true device_online
  = (Normal (), device_online, []).
Proof.
  eapply (statusUpdate_of_unflagged_sender_is_ignored utc Deployed 1%nat status_on _
            0 true device_online);
    [vm_compute; reflexivity | reflexivity | reflexivity].
Defined.

Lemma command_is_forwarded_to_open_device_witness :
  sends (message_handler utc Deployed 1 command_on 0 true device_online).2
  = [(0%nat, msg_envelope
        (JObj [("value", JNum 1); ("command", JStr "MOTOR_ON");
               ("type", JStr "command")]))].
Proof.
  eapply (command_is_forwarded_to_open_device utc Deployed 1%nat 0%nat command_on
            (JObj [("value", JNum 1); ("command", JStr "MOTOR_ON");
                   ("type", JStr "command")]) 0 true device_online);
    [vm_compute; reflexivity | reflexivity | discriminate | discriminate
    | reflexivity | reflexivity].
Defined.

Lemma identify_takes_the_slot_witness :
  esp32Socket (message_handler utc Deployed 1 identify 0 true device_online).1.2
  = Some 1%nat.
Proof.
  eapply (identify_takes_the_slot utc Deployed 1%nat identify _ 0 true
            device_online);
    [vm_compute; reflexivity | reflexivity | vm_compute; eauto].
Defined.

Lemma slot_holds_a_flagged_client_witness :
  sock_isEsp32
    (after utc Deployed
       [connection; connection; message 0 identify 0 true;
        message 1 identify 0 true; close 0; message 1 identify 0 true] initial)
    1 = true.
Proof.
  eapply (slot_holds_a_flagged_client utc Deployed
            [connection; connection; message 0 identify 0 true;
             message 1 identify 0 true; close 0; message 1 identify 0 true]
            1%nat).
  vm_compute. reflexivity.
Defined.

Lemma unhandled_type_is_ignored_witness :
  message_handler utc Backup 1 number_frame 0 true two_dashboards
  = (Normal (), two_dashboards, []).
Proof.
  eapply (unhandled_type_is_ignored utc Backup 1%nat number_frame _ 0 true
            two_dashboards);
    [vm_compute; reflexivity | discriminate | reflexivity].
Defined.

Lemma only_log_messages_write_the_collection_witness :
  MotorLogs (message_handler utc Backup 0 getLogs_january_1 0 true
               (with_two_logs Backup)).1.2
  = MotorLogs (with_two_logs Backup).
Proof.
  eapply (only_log_messages_write_the_collection utc Backup 0%nat getLogs_january_1
            _ 0 true (with_two_logs Backup));
    [vm_compute; reflexivity | reflexivity | reflexivity | reflexivity].
Defined.

Lemma every_send_is_routed_witness :
  routed device_online 1%nat 0%nat (msg_envelope
    (JObj [("value", JNum 1); ("command", JStr "MOTOR_ON");
           ("type", JStr "command")])).
Proof.
  apply (every_send_is_routed utc Deployed 1%nat command_on 0 true device_online).
  vm_compute. right. left.
Defined.

Lemma deleteLogs_filter_is_getLogs_filter_witness :
  deleteLogs_match utc (Some (JStr "2024-01-01")) (Some (JStr "2024-01-01"))
  = getLogs_query utc (Some (JStr "2024-01-01")) (Some (JStr "2024-01-01")).
Proof. apply deleteLogs_filter_is_getLogs_filter; reflexivity. Defined.

Lemma deleteLogs_over_a_range_witness :
  sends (on_message_backup utc 0 deleteLogs_january_1 0 true (with_two_logs Backup)).2
  = [(0%nat, msg_error "Deleted 2 logs.")].
Proof.
  refine (eq_trans
    (proj1 (proj2 (proj2 (deleteLogs_over_a_range utc 0%nat deleteLogs_january_1
       (JObj [("payload", JObj [("endDate", JStr "2024-01-01");
                                ("startDate", JStr "2024-01-01")]);
              ("type", JStr "deleteLogs")])
       (Some {| gte := Some (Some 1704067200000);
                lt := Some (Some 1704153600000) |})
       0 (with_two_logs Backup) _ _ _ _ _ _ _)))) _);
    [ vm_compute; reflexivity | left; reflexivity | reflexivity | reflexivity
    | vm_compute; reflexivity | reflexivity | reflexivity
    | vm_compute; reflexivity ].
Defined.

Lemma getLogs_reply_lies_within_the_days_witness :
  1704067200000 <= 1704070800000 < 1704067200000 + JsDate.msPerDay.
Proof.
  refine (proj2 (getLogs_reply_lies_within_the_days utc Deployed 0 0%nat
    getLogs_january_1
    (JObj [("payload", JObj [("endDate", JStr "2024-01-01");
                             ("startDate", JStr "2024-01-01")]);
           ("type", JStr "getLogs")])
    "2024-01-01" "2024-01-01" (2024, 1, 1) (2024, 1, 1) 0 true
    (with_two_logs Deployed) 0%nat
    (find_sort_limit
       (Some {| gte := Some (Some 1704067200000);
                lt := Some (Some 1704153600000) |})
       (MotorLogs (with_two_logs Deployed)))
    {| macAddress := Some (JStr "AA:BB"); onTime := Some (JStr "10:00");
       offTime := Some (JStr "10:05"); duration := Some (JStr "5m");
       serverTime := 1704070800000 |}
    _ _ _ _ _ _ _ _ _)); try reflexivity; try (vm_compute; reflexivity).
  - vm_compute. left.
  - vm_compute. left.
Defined.

Lemma deployed_getLogs_with_invalid_date_gets_no_answer_witness :
  on_message utc 0 getLogs_since_yesterday 0 true (with_two_logs Deployed)
  = (Normal (), with_two_logs Deployed,
     [Console Error [Txt "DB Query Fail:"; Err]]).
Proof.
  eapply (deployed_getLogs_with_invalid_date_gets_no_answer utc 0%nat
            getLogs_since_yesterday
            (JObj [("payload", JObj [("startDate", JStr "yesterday")]);
                   ("type", JStr "getLogs")])
            (Some {| gte := Some None; lt := None |})
            0 true (with_two_logs Deployed));
    [vm_compute; reflexivity | reflexivity | vm_compute; reflexivity
    | left; split; vm_compute; reflexivity | reflexivity].
Defined.

Lemma nothing_is_pushed_after_close_witness :
  (0%nat, msg_statusUpdate (Some (JObj [("motorStatus", JStr "ON")])))
  ∉ sends (trace utc Deployed
             [connection; message 2 identify 0 true; message 2 status_on 0 true]
             (after utc Deployed ([connection; connection] ++ [close 0]) initial)).
Proof.
  apply (nothing_is_pushed_after_close utc Deployed [connection; connection] 0%nat
           [connection; message 2 identify 0 true; message 2 status_on 0 true]);
    [vm_compute; reflexivity | exact I].
Defined.

Lemma formatDuration_is_injective_witness : 3725%N = 3725%N.
Proof. apply formatDuration_is_injective. reflexivity. Defined.


Lemma firmware_upload_is_stored_witness :
  (message_handler utc Deployed 0
     (js "{'type':'uploadLog','payload':{'mac':'AA:BB:CC:DD:EE:FF','onTime':'10/03 10:00AM','offTime':'10/03 10:05AM','duration':'5m 0s'}}")
     1710043600000 true (with_two_logs Deployed)).1
  = (Normal (),
     with_MotorLogs
       (MotorLogs (with_two_logs Deployed)
        ++ [ {| macAddress := Some (JStr "AA:BB:CC:DD:EE:FF");
                onTime := Some (JStr "10/03 10:00AM");
                offTime := Some (JStr "10/03 10:05AM");
                duration := Some (JStr "5m 0s");
                serverTime := 1710043600000 |} ])
       (with_two_logs Deployed)).
Proof.
  refine (eq_trans
    (proj1 (firmware_upload_is_stored utc Deployed synced_and_connected
       1710043200 1710043500
       [Firmware.Serial_print "Attempting to Log... Synced: ";
        Firmware.Serial_println "1"; Firmware.Serial_print "Log: ";
        Firmware.Serial_print "300"; Firmware.Serial_println "s";
        Firmware.sendTXT
          (Firmware.uploadLog_doc "AA:BB:CC:DD:EE:FF" "10/03 10:00AM"
             "10/03 10:05AM" "5m 0s");
        Firmware.Serial_println "Log Sent to Server"]
       (Firmware.uploadLog_doc "AA:BB:CC:DD:EE:FF" "10/03 10:00AM"
          "10/03 10:05AM" "5m 0s")
       0%nat
       (js "{'type':'uploadLog','payload':{'mac':'AA:BB:CC:DD:EE:FF','onTime':'10/03 10:00AM','offTime':'10/03 10:05AM','duration':'5m 0s'}}")
       1710043600000 (with_two_logs Deployed) _ _ _ _)) _);
    [ vm_compute; reflexivity | do 5 right; left | vm_compute; reflexivity
    | reflexivity | vm_compute; reflexivity ].
Defined.

Lemma firmware_status_reaches_dashboards_witness :
  sends (message_handler utc Deployed 0
           (js "{'type':'statusUpdate','payload':{'motorStatus':'OFF','systemMode':'Normal','doorStatus':'Closed','lastAction':'System Boot','wifiSignal':47,'localIP':'192.168.0.10','wsHost':'pumpv5.espserver.site'}}")
           0 true device_online).2
  = [(1%nat, msg_statusUpdate (Some (JObj
        [("wsHost", JStr "pumpv5.espserver.site");
         ("localIP", JStr "192.168.0.10");
         ("wifiSignal", JNum 47);
         ("lastAction", JStr "System Boot");
         ("doorStatus", JStr "Closed");
         ("systemMode", JStr "Normal");
         ("motorStatus", JStr "OFF")])))].
Proof.
  refine (eq_trans
    (firmware_status_reaches_dashboards utc Deployed (readings_at (-67)) after_boot
       (Firmware.statusUpdate_doc
          (Firmware.sendStatusUpdate (readings_at (-67)) after_boot).1
          "192.168.0.10")
       0%nat
       (js "{'type':'statusUpdate','payload':{'motorStatus':'OFF','systemMode':'Normal','doorStatus':'Closed','lastAction':'System Boot','wifiSignal':47,'localIP':'192.168.0.10','wsHost':'pumpv5.espserver.site'}}")
       0 true device_online _ _ _) _);
    [ left | vm_compute; reflexivity | vm_compute; reflexivity
    | vm_compute; reflexivity ].
Defined.

End MoreExamples.
